(** * Retail analytics dashboard: generator, filter engine and aggregator

    A shallow embedding of [app.py].  The script builds a synthetic order
    table with numpy and pandas, filters it with a boolean mask, and reduces
    the filtered view with sums, group-by sums, [max] and [idxmax].

    Conventions of the embedding:
    - a calendar date (a pandas timestamp at midnight) is the number of days
      since 1970-01-01, an integer;
    - a float column holds exact rationals ([Q]), every double being one;
      sums and quotients over them are exact, so only properties that
      rounding cannot change are stated of them, and where rounding decides
      the float64 evaluation of the same rows is used instead;
    - a [DataFrame] is the list of its rows, each carrying its index label;
    - a Python exception is the [Raise] branch of [result];
    - numpy's global generator is an interface, [RandomState], described by
      the documented range of each draw. *)

From Stdlib Require Import String Ascii DecimalString SpecFloat.
From Stdlib Require Import ZArith QArith List Bool Lia Lqa Sorted Finite.
Import ListNotations.

Local Open Scope Z_scope.

(** ** Exceptions and results *)

(** [ValueError], [OverflowError] and [IndexError] are what numpy, pandas
    and tuple indexing raise.  [ConfigurationError] and [EmptyViewError] are
    the two names the specification gives to failures; no line of the script
    raises them. *)
Inductive exn : Type :=
| ValueError
| OverflowError
| IndexError
| ConfigurationError
| EmptyViewError.

Inductive result (A : Type) : Type :=
| Ok (a : A)
| Raise (e : exn).

Arguments Ok {A} a.
Arguments Raise {A} e.

Definition rbind {A B} (r : result A) (k : A -> result B) : result B :=
  match r with
  | Ok a => k a
  | Raise e => Raise e
  end.

Declare Scope result_scope.
Delimit Scope result_scope with result.
Notation "'try' x <- c1 ;; c2" := (rbind c1 (fun x => c2))
  (at level 61, x name, c1 at next level, right associativity) : result_scope.

(** ** numpy's global random generator *)

(** The legacy generator behind [np.random.seed], [randint], [choice] and
    [uniform]: a state, and draws that return [n] values and the next
    state.  The laws are the documented contracts of the three draws. *)
Record RandomState : Type := {
  rng : Type;
  rng_seed : Z -> rng;
  rng_randint : Z -> Z -> nat -> rng -> list Z * rng;
  rng_choice : list string -> nat -> rng -> list string * rng;
  rng_uniform : Q -> Q -> nat -> rng -> list Q * rng;
  randint_length : forall lo hi n s,
      length (fst (rng_randint lo hi n s)) = n;
  randint_range : forall lo hi n s, lo < hi ->
      Forall (fun x => lo <= x < hi) (fst (rng_randint lo hi n s));
  choice_length : forall opts n s,
      length (fst (rng_choice opts n s)) = n;
  choice_range : forall opts n s, opts <> [] ->
      Forall (fun x => In x opts) (fst (rng_choice opts n s));
  uniform_length : forall lo hi n s,
      length (fst (rng_uniform lo hi n s)) = n;
  uniform_range : forall lo hi n s, (lo < hi)%Q ->
      Forall (fun x => (lo <= x)%Q /\ (x < hi)%Q) (fst (rng_uniform lo hi n s))
}.

(** A concrete generator: a linear congruential stream.  It is not numpy's
    Mersenne twister; it shows the interface is inhabited and lets the
    generator run on small inputs. *)
Module LCG.

Definition next (s : Z) : Z := (1103515245 * s + 12345) mod 2147483648.

Fixpoint draws {A : Type} (f : Z -> A) (n : nat) (s : Z) : list A * Z :=
  match n with
  | O => ([], s)
  | S n' => let (xs, s') := draws f n' (next s) in (f s :: xs, s')
  end.

Definition randint (lo hi : Z) : nat -> Z -> list Z * Z :=
  draws (fun s => lo + s mod (hi - lo)).

Definition choice (opts : list string) : nat -> Z -> list string * Z :=
  draws (fun s => nth (Z.to_nat (s mod Z.of_nat (length opts))) opts EmptyString).

Definition unit_interval (s : Z) : Q := (s mod 1000) # 1000.

Definition uniform (lo hi : Q) : nat -> Z -> list Q * Z :=
  draws (fun s => (lo + (hi - lo) * unit_interval s)%Q).

End LCG.

(** ** Data model *)

(** One row of the table built by [load_data]: the index label pandas gives
    it and the ten columns, under the names the script gives them. *)
Record row : Type := {
  idx : Z;
  Date : Z;
  Order_ID : Z;
  Customer_ID : Z;
  Region : string;
  Category : string;
  Product : string;
  Quantity : Z;
  Unit_Price : Q;
  Discount : Q;
  Revenue : Q
}.

Definition DataFrame : Type := list row.

(** The dict [data] of lines 32-42: nine columns, before [Revenue] exists. *)
Record data : Type := {
  data_Date : list Z;
  data_Order_ID : list Z;
  data_Customer_ID : list Z;
  data_Region : list string;
  data_Category : list string;
  data_Product : list string;
  data_Quantity : list Z;
  data_Unit_Price : list Q;
  data_Discount : list Q
}.

(** 2025-01-01 as a day number. *)
Definition start_2025_01_01 : Z := 20089.

Definition region_options : list string :=
  ["North America"; "Europe"; "Asia"; "LATAM"]%string.
Definition category_options : list string :=
  ["Electronics"; "Clothing"; "Home"; "Books"]%string.
Definition product_options : list string :=
  ["iPhone"; "T-Shirt"; "Sofa"; "Novel"]%string.

(** ** pandas and numpy primitives used by the generator *)

(** [pd.date_range(start=..., periods=n)]: [n] consecutive days.  A negative
    [periods] raises [OverflowError].  Which exception a negative count
    ends in has changed between library versions, so the theorems on
    negative counts say only that one is raised. *)
Definition pd_date_range (start periods : Z) : result (list Z) :=
  if periods <? 0 then Raise OverflowError
  else Ok (map (fun k => start + Z.of_nat k) (seq 0 (Z.to_nat periods))).

Definition is_empty {A} (xs : list A) : bool :=
  match xs with [] => true | _ => false end.

(** [np.tile(xs, reps)] on a one-dimensional array: the whole block [xs]
    repeated [reps] times.  A negative count is an error unless there is
    nothing to repeat. *)
Definition np_tile {A} (xs : list A) (reps : Z) : result (list A) :=
  if (reps <? 0) && negb (is_empty xs) then Raise ValueError
  else Ok (concat (repeat xs (Z.to_nat reps))).

(** [range(a, b)]. *)
Definition py_range (a b : Z) : list Z :=
  map (fun k => a + Z.of_nat k) (seq 0 (Z.to_nat (b - a))).

(** Element-wise arithmetic on float columns. *)
Definition Series_astype_float (s : list Z) : list Q := map inject_Z s.
Definition Series_mul (a b : list Q) : list Q :=
  map (fun p => (fst p * snd p)%Q) (combine a b).
Definition Series_rsub (c : Q) (s : list Q) : list Q :=
  map (fun x => (c - x)%Q) s.

Definition same_length (n : nat) (d : data) : bool :=
  (length (data_Order_ID d) =? n)%nat &&
  (length (data_Customer_ID d) =? n)%nat &&
  (length (data_Region d) =? n)%nat &&
  (length (data_Category d) =? n)%nat &&
  (length (data_Product d) =? n)%nat &&
  (length (data_Quantity d) =? n)%nat &&
  (length (data_Unit_Price d) =? n)%nat &&
  (length (data_Discount d) =? n)%nat.

(** [pd.DataFrame(data)]: columns of unequal length are a [ValueError]. *)
Definition pd_DataFrame (d : data) : result data :=
  if same_length (length (data_Date d)) d then Ok d else Raise ValueError.

(** Line 44: [df['Quantity'] * df['Unit_Price'] * (1 - df['Discount'])]. *)
Definition Revenue_column (d : data) : list Q :=
  Series_mul (Series_mul (Series_astype_float (data_Quantity d)) (data_Unit_Price d))
             (Series_rsub 1 (data_Discount d)).

(** The frame after line 44, read row by row; the index is 0, 1, 2, ... *)
Definition rows_of (d : data) (revenue : list Q) : DataFrame :=
  map (fun i =>
         {| idx := Z.of_nat i;
            Date := nth i (data_Date d) 0;
            Order_ID := nth i (data_Order_ID d) 0;
            Customer_ID := nth i (data_Customer_ID d) 0;
            Region := nth i (data_Region d) EmptyString;
            Category := nth i (data_Category d) EmptyString;
            Product := nth i (data_Product d) EmptyString;
            Quantity := nth i (data_Quantity d) 0;
            Unit_Price := nth i (data_Unit_Price d) 0%Q;
            Discount := nth i (data_Discount d) 0%Q;
            Revenue := nth i revenue 0%Q |})
      (seq 0 (length (data_Date d))).

(** ** Record generator: [load_data] *)

Section Generator.

Variable R : RandomState.

(** Calls that read and advance numpy's global generator and may raise. *)
Definition M (A : Type) : Type := rng R -> result (A * rng R).

Definition ret {A} (a : A) : M A := fun s => Ok (a, s).

Definition bind {A B} (m : M A) (k : A -> M B) : M B :=
  fun s => match m s with
           | Ok (a, s') => k a s'
           | Raise e => Raise e
           end.

Definition lift {A} (r : result A) : M A :=
  fun s => match r with
           | Ok a => Ok (a, s)
           | Raise e => Raise e
           end.

Notation "x <- c1 ;; c2" := (bind c1 (fun x => c2))
  (at level 61, c1 at next level, right associativity).

Definition np_random_seed (z : Z) : M unit :=
  fun _ => Ok (tt, rng_seed R z).

(** A negative [size] is numpy's "negative dimensions are not allowed". *)
Definition np_random_randint (low high size : Z) : M (list Z) :=
  fun s => if (size <? 0) || (high <=? low) then Raise ValueError
           else let p := rng_randint R low high (Z.to_nat size) s in
                Ok (fst p, snd p).

Definition np_random_choice (opts : list string) (size : Z) : M (list string) :=
  fun s => if (size <? 0) || is_empty opts then Raise ValueError
           else let p := rng_choice R opts (Z.to_nat size) s in
                Ok (fst p, snd p).

Definition np_random_uniform (low high : Q) (size : Z) : M (list Q) :=
  fun s => if size <? 0 then Raise ValueError
           else let p := rng_uniform R low high (Z.to_nat size) s in
                Ok (fst p, snd p).

(** The body of [load_data] with its four literals as parameters: the seed
    42, the day count 365, the block count 100 and the first day.  Line 45,
    [pd.to_datetime] on a column that already holds timestamps, changes
    nothing and has no counterpart here. *)
Definition load_data_with (seed n_days per_day start : Z) : M DataFrame :=
  _ <- np_random_seed seed ;;
  dates <- lift (pd_date_range start n_days) ;;
  c_Date <- lift (np_tile dates per_day) ;;
  let c_Order_ID := py_range 1 (n_days * per_day + 1) in
  c_Customer_ID <- np_random_randint 1000 5000 (n_days * per_day) ;;
  c_Region <- np_random_choice region_options (n_days * per_day) ;;
  c_Category <- np_random_choice category_options (n_days * per_day) ;;
  c_Product <- np_random_choice product_options (n_days * per_day) ;;
  c_Quantity <- np_random_randint 1 10 (n_days * per_day) ;;
  c_Unit_Price <- np_random_uniform 10 1000 (n_days * per_day) ;;
  c_Discount <- np_random_uniform 0 (3 # 10) (n_days * per_day) ;;
  d <- lift (pd_DataFrame {| data_Date := c_Date;
                             data_Order_ID := c_Order_ID;
                             data_Customer_ID := c_Customer_ID;
                             data_Region := c_Region;
                             data_Category := c_Category;
                             data_Product := c_Product;
                             data_Quantity := c_Quantity;
                             data_Unit_Price := c_Unit_Price;
                             data_Discount := c_Discount |}) ;;
  ret (rows_of d (Revenue_column d)).

(** [load_data()] as the script defines it: no parameter at all. *)
Definition load_data : M DataFrame :=
  load_data_with 42 365 100 start_2025_01_01.

(** The table a call returns when the global generator is in state [s0]
    before the call. *)
Definition generate (seed n_days per_day start : Z) (s0 : rng R) : result DataFrame :=
  match load_data_with seed n_days per_day start s0 with
  | Ok (df, _) => Ok df
  | Raise e => Raise e
  end.

End Generator.

(** The revenue invariant of the data model. *)
Definition revenue_invariant (r : row) : Prop :=
  Revenue r = (inject_Z (Quantity r) * Unit_Price r * (1 - Discount r))%Q /\
  (0 <= Revenue r)%Q.

(** ** Filter engine: lines 66-71 *)

Local Open Scope result_scope.

(** Column selection and the element-wise comparisons of the mask. *)
Definition col {A} (f : row -> A) (df : DataFrame) : list A := map f df.

Definition Series_ge (s : list Z) (v : Z) : list bool := map (fun x => v <=? x) s.
Definition Series_le (s : list Z) (v : Z) : list bool := map (fun x => x <=? v) s.
Definition Series_isin (s : list string) (values : list string) : list bool :=
  map (fun x => existsb (String.eqb x) values) s.
Definition Series_and (a b : list bool) : list bool :=
  map (fun p => fst p && snd p) (combine a b).

(** [df[mask]]: the rows whose mask entry is [True], labels kept. *)
Definition getitem_mask (df : DataFrame) (mask : list bool) : DataFrame :=
  map fst (filter snd (combine df mask)).

(** [t[i]] on a tuple. *)
Definition tuple_get {A} (t : list A) (i : nat) : result A :=
  match nth_error t i with
  | Some x => Ok x
  | None => Raise IndexError
  end.

(** The expression assigned to [filtered_df].  [date_range] is the tuple
    the date widget returns. *)
Definition filtered_df (df : DataFrame) (date_range : list Z)
           (regions categories : list string) : result DataFrame :=
  try d0 <- tuple_get date_range 0 ;;
  try d1 <- tuple_get date_range 1 ;;
  Ok (getitem_mask df
        (Series_and
           (Series_and
              (Series_and (Series_ge (col Date df) d0)
                          (Series_le (col Date df) d1))
              (Series_isin (col Region df) regions))
           (Series_isin (col Category df) categories))).

(** Filter criteria as the specification names them. *)
Record Criteria : Type := {
  start_date : Z;
  end_date : Z;
  region_set : list string;
  category_set : list string
}.

Definition apply (dataset : DataFrame) (c : Criteria) : result DataFrame :=
  filtered_df dataset [start_date c; end_date c] (region_set c) (category_set c).

(** The retention condition in the specification's words. *)
Definition retained (c : Criteria) (r : row) : Prop :=
  start_date c <= Date r <= end_date c /\
  In (Region r) (region_set c) /\
  In (Category r) (category_set c).

Definition retainedb (c : Criteria) (r : row) : bool :=
  (start_date c <=? Date r) && (Date r <=? end_date c) &&
  existsb (String.eqb (Region r)) (region_set c) &&
  existsb (String.eqb (Category r)) (category_set c).

(** A subsequence: some elements dropped, the others in their order. *)
Inductive subseq {A} : list A -> list A -> Prop :=
| subseq_nil : subseq [] []
| subseq_skip x l1 l2 : subseq l1 l2 -> subseq l1 (x :: l2)
| subseq_keep x l1 l2 : subseq l1 l2 -> subseq (x :: l1) (x :: l2).

(** The script's globals around the filter: line 66 binds [filtered_df] and
    reads [df]. *)
Record globals : Type := {
  g_df : DataFrame;
  g_filtered_df : option DataFrame
}.

Definition run_filter (g : globals) (c : Criteria) : result globals :=
  try v <- apply (g_df g) c ;;
  Ok {| g_df := g_df g; g_filtered_df := Some v |}.

(** ** Aggregator *)

(** [Series.sum()], as the exact sum of the values.  The code adds doubles
    and rounds; what it computes on given rows is [Series_sum_f64] below. *)
Definition Series_sum (s : list Q) : Q := fold_left Qplus s 0%Q.

Definition kpi_revenue (v : DataFrame) : Q := Series_sum (col Revenue v).
Definition kpi_orders (v : DataFrame) : Z := Z.of_nat (length v).
(** Line 78, with the quotient taken exactly where the code rounds it. *)
Definition kpi_avg_order (v : DataFrame) : Q :=
  if 0 <? kpi_orders v then (kpi_revenue v / inject_Z (kpi_orders v))%Q else 0%Q.

(** A float result that may be [nan]. *)
Inductive float : Type :=
| NaN
| Num (q : Q).

Definition Qmaxb (a b : Q) : Q := if Qle_bool b a then a else b.

(** [Series.max()]: [nan] on an empty series. *)
Definition Series_max (s : list Q) : float :=
  match s with
  | [] => NaN
  | x :: l => Num (fold_left Qmaxb l x)
  end.

Section GroupBy.

Variable K : Type.
Variable Keqb : K -> K -> bool.
Variable Kleb : K -> K -> bool.

(** The group keys of [groupby(...)] with its default [sort=True]: the
    distinct values of the key column in ascending order. *)
Fixpoint insert_key (k : K) (ks : list K) : list K :=
  match ks with
  | [] => [k]
  | k' :: ks' =>
      if Keqb k k' then ks
      else if Kleb k k' then k :: ks
      else k' :: insert_key k ks'
  end.

Definition group_keys (keys : list K) : list K := fold_right insert_key [] keys.

Definition group_rows (key : row -> K) (v : DataFrame) (k : K) : DataFrame :=
  filter (fun r => Keqb (key r) k) v.

(** The summed revenue of one group. *)
Definition group_total (key : row -> K) (v : DataFrame) (k : K) : Q :=
  Series_sum (col Revenue (group_rows key v k)).

(** [v.groupby(key)['Revenue'].sum()]: a series indexed by group key. *)
Definition groupby_Revenue_sum (key : row -> K) (v : DataFrame) : list (K * Q) :=
  map (fun k => (k, group_total key v k)) (group_keys (col key v)).

(** Strictly before, in the order of the keys. *)
Definition Klt (a b : K) : Prop := Kleb a b = true /\ a <> b.

(** [Series.idxmax()]: the label of the first occurrence of the maximum;
    a [ValueError] on an empty series. *)
Fixpoint idxmax_from (best : K * Q) (s : list (K * Q)) : K :=
  match s with
  | [] => fst best
  | p :: s' =>
      if Qle_bool (snd p) (snd best) then idxmax_from best s'
      else idxmax_from p s'
  end.

Definition idxmax (s : list (K * Q)) : result K :=
  match s with
  | [] => Raise ValueError
  | p :: s' => Ok (idxmax_from p s')
  end.

End GroupBy.

Arguments insert_key {K}.
Arguments group_keys {K}.
Arguments group_rows {K}.
Arguments group_total {K}.
Arguments groupby_Revenue_sum {K}.
Arguments Klt {K}.
Arguments idxmax_from {K}.
Arguments idxmax {K}.

(** Lines 105 and 111: the two chart series. *)
Definition daily_revenue (v : DataFrame) : list (Z * Q) :=
  groupby_Revenue_sum Z.eqb Z.leb Date v.
Definition region_rev (v : DataFrame) : list (string * Q) :=
  groupby_Revenue_sum String.eqb String.leb Region v.

(** Lines 131-133: the three bottom metrics, before formatting. *)
Definition top_category_revenue (v : DataFrame) : float :=
  Series_max (map snd (groupby_Revenue_sum String.eqb String.leb Category v)).
Definition top_region (v : DataFrame) : result string :=
  idxmax (groupby_Revenue_sum String.eqb String.leb Region v).
Definition busiest_day (v : DataFrame) : result Z :=
  idxmax (groupby_Revenue_sum Z.eqb Z.leb Date v).

Definition region_total (v : DataFrame) (k : string) : Q :=
  group_total String.eqb Region v k.
Definition day_total (v : DataFrame) (d : Z) : Q :=
  group_total Z.eqb Date v d.

(** What a metric does on a view, for comparing the three: it raises, it
    returns [nan], or it returns a proper value. *)
Inductive outcome : Type :=
| Fails (e : exn)
| Returns_nan
| Returns_value.

Definition outcome_of_float (x : float) : outcome :=
  match x with
  | NaN => Returns_nan
  | Num _ => Returns_value
  end.

Definition outcome_of_result {A} (x : result A) : outcome :=
  match x with
  | Ok _ => Returns_value
  | Raise e => Fails e
  end.

(** The place of a region in the list the generator draws from (line 36). *)
Fixpoint declaration_rank (k : string) (options : list string) : nat :=
  match options with
  | [] => O
  | o :: rest => if String.eqb k o then O else S (declaration_rank k rest)
  end.

(** A row with the given label, day, region, category and revenue, the
    other columns at fixed values; used to write small views down. *)
Definition order_row (i day : Z) (region category : string) (revenue : Q) : row :=
  {| idx := i; Date := day; Order_ID := i + 1; Customer_ID := 1000;
     Region := region; Category := category; Product := "Novel"%string;
     Quantity := 1; Unit_Price := revenue; Discount := 0%Q;
     Revenue := revenue |}.

(** Two rows with the same revenue, in two regions. *)
Definition tied_view : DataFrame :=
  [ order_row 0 20089 "North America"%string "Books"%string 1;
    order_row 1 20089 "Asia"%string "Books"%string 1 ].

(** A small view and criteria with no region selected. *)
Definition sample_view : DataFrame :=
  [ order_row 0 20089 "Europe"%string "Books"%string 5;
    order_row 1 20090 "Asia"%string "Home"%string (7 # 2);
    order_row 2 20091 "Europe"%string "Clothing"%string 12 ].

Definition no_region : Criteria :=
  {| start_date := 20089; end_date := 20453;
     region_set := []; category_set := category_options |}.

(** ** The sums in float64 *)







(** ** Table and CSV export: lines 117-121 *)

(** The columns of [filtered_df], in frame order. *)
Definition columns : list string :=
  ["Date"; "Order_ID"; "Customer_ID"; "Region"; "Category"; "Product";
   "Quantity"; "Unit_Price"; "Discount"; "Revenue"]%string.

(** The column list of the on-screen table, line 117. *)
Definition table_columns : list string :=
  ["Date"; "Region"; "Category"; "Product"; "Quantity"; "Unit_Price";
   "Revenue"]%string.

Section CsvExport.

(** How a date and a float are printed is left to the caller, and so is the
    line terminator, which pandas takes from the platform. *)
Variable fmt_date : Z -> string.
Variable fmt_float : Q -> string.
Variable lineterminator : string.

Definition fmt_int (z : Z) : string := NilZero.string_of_int (Z.to_int z).

Definition cells (r : row) : list string :=
  [fmt_date (Date r); fmt_int (Order_ID r); fmt_int (Customer_ID r);
   Region r; Category r; Product r; fmt_int (Quantity r);
   fmt_float (Unit_Price r); fmt_float (Discount r); fmt_float (Revenue r)].

Definition table_cells (r : row) : list string :=
  [fmt_date (Date r); Region r; Category r; Product r; fmt_int (Quantity r);
   fmt_float (Unit_Price r); fmt_float (Revenue r)].

(** [filtered_df[[...]].head(1000)]. *)
Definition table (v : DataFrame) : list (list string) :=
  table_columns :: firstn 1000 (map table_cells v).

Definition dquote : ascii := ascii_of_nat 34.
Definition comma : ascii := ascii_of_nat 44.
Definition line_feed : ascii := ascii_of_nat 10.
Definition carriage_return : ascii := ascii_of_nat 13.

Fixpoint needs_quote (s : string) : bool :=
  match s with
  | EmptyString => false
  | String a s' =>
      Ascii.eqb a dquote || Ascii.eqb a comma || Ascii.eqb a line_feed ||
      Ascii.eqb a carriage_return || needs_quote s'
  end.

Fixpoint escape_quotes (s : string) : string :=
  match s with
  | EmptyString => EmptyString
  | String a s' =>
      if Ascii.eqb a dquote then String dquote (String dquote (escape_quotes s'))
      else String a (escape_quotes s')
  end.

(** Minimal quoting, the default of the csv writer. *)
Definition csv_field (s : string) : string :=
  if needs_quote s
  then String dquote (escape_quotes s ++ String dquote EmptyString)
  else s.

Definition csv_line (fields : list string) : string :=
  (String.concat (String comma EmptyString) (map csv_field fields)
   ++ lineterminator)%string.

(** The records handed to the writer by [to_csv(buffer, index=False)]:
    the header, then every row with every column. *)
Definition to_csv_records (v : DataFrame) : list (list string) :=
  columns :: map cells v.

Definition to_csv (v : DataFrame) : string :=
  String.concat EmptyString (map csv_line (to_csv_records v)).

End CsvExport.

(** ** Sidebar: lines 56-63 *)

(** [Series.min()] and [Series.max()] on the date column; [None] stands for
    [NaT], what an empty column gives. *)
Definition Series_min_date (s : list Z) : option Z :=
  match s with
  | [] => None
  | x :: l => Some (fold_left Z.min l x)
  end.

Definition Series_max_date (s : list Z) : option Z :=
  match s with
  | [] => None
  | x :: l => Some (fold_left Z.max l x)
  end.

(** [Series.unique()]: the distinct values in order of first appearance. *)
Fixpoint unique_from {A} (eqb : A -> A -> bool) (seen l : list A) : list A :=
  match l with
  | [] => []
  | x :: l' =>
      if existsb (eqb x) seen then unique_from eqb seen l'
      else x :: unique_from eqb (x :: seen) l'
  end.

Definition Series_unique {A} (eqb : A -> A -> bool) (s : list A) : list A :=
  unique_from eqb [] s.

(** The options and defaults of the two multiselects. *)
Definition sidebar_regions (df : DataFrame) : list string :=
  Series_unique String.eqb (col Region df).
Definition sidebar_categories (df : DataFrame) : list string :=
  Series_unique String.eqb (col Category df).

(** Line 77: [filtered_df['Customer_ID'].nunique()]. *)
Definition kpi_customers (v : DataFrame) : Z :=
  Z.of_nat (length (Series_unique Z.eqb (col Customer_ID v))).

(** What the nine drawn columns satisfy when all have [n] entries: the
    documented range of each draw. *)
Definition drawn_in_range (n : nat) (d : data) : Prop :=
  length (data_Date d) = n /\
  length (data_Order_ID d) = n /\
  length (data_Customer_ID d) = n /\
  length (data_Region d) = n /\
  length (data_Category d) = n /\
  length (data_Product d) = n /\
  length (data_Quantity d) = n /\
  length (data_Unit_Price d) = n /\
  length (data_Discount d) = n /\
  Forall (fun x => 1000 <= x < 5000) (data_Customer_ID d) /\
  Forall (fun x => In x region_options) (data_Region d) /\
  Forall (fun x => In x category_options) (data_Category d) /\
  Forall (fun x => In x product_options) (data_Product d) /\
  Forall (fun x => 1 <= x < 10) (data_Quantity d) /\
  Forall (fun x => (10 <= x)%Q /\ (x < 1000)%Q) (data_Unit_Price d) /\
  Forall (fun x => (0 <= x)%Q /\ (x < 3 # 10)%Q) (data_Discount d).


(** ** Further notions used in the properties *)

(** [c] selects no more than [c']: a shorter date range inside the other,
    fewer regions, fewer categories. *)
Definition narrower (c c' : Criteria) : Prop :=
  start_date c' <= start_date c /\
  end_date c <= end_date c' /\
  incl (region_set c) (region_set c') /\
  incl (category_set c) (category_set c').


Definition category_total (v : DataFrame) (k : string) : Q :=
  group_total String.eqb Category v k.


(** Criteria for the whole of 2025, every region and category. *)
Definition whole_year : Criteria :=
  {| start_date := 20089; end_date := 20453;
     region_set := region_options; category_set := category_options |}.

(** * Properties *)

(** ** The linear congruential stream meets the generator's contracts *)

Lemma LCG_draws_length {A} (f : Z -> A) n : forall s,
    length (fst (LCG.draws f n s)) = n.
Proof.
  induction n as [|n IH]; intros s; simpl; [reflexivity|].
  specialize (IH (LCG.next s)). destruct (LCG.draws f n (LCG.next s)); simpl in *.
  now rewrite IH.
Qed.

Lemma LCG_draws_Forall {A} (f : Z -> A) (P : A -> Prop) n :
  (forall s, P (f s)) -> forall s, Forall P (fst (LCG.draws f n s)).
Proof.
  intros Hf. induction n as [|n IH]; intros s; simpl; [constructor|].
  specialize (IH (LCG.next s)). destruct (LCG.draws f n (LCG.next s)); simpl in *.
  constructor; auto.
Qed.

Lemma LCG_unit_interval_range s :
  (0 <= LCG.unit_interval s)%Q /\ (LCG.unit_interval s < 1)%Q.
Proof.
  unfold LCG.unit_interval, Qle, Qlt; simpl.
  pose proof (Z.mod_pos_bound s 1000 ltac:(lia)). lia.
Qed.

Lemma scale_range (lo hi u : Q) :
  (lo < hi)%Q -> (0 <= u)%Q -> (u < 1)%Q ->
  (lo <= lo + (hi - lo) * u)%Q /\ (lo + (hi - lo) * u < hi)%Q.
Proof.
  intros Hlh H0 H1.
  assert (Hd : (0 < hi - lo)%Q) by lra.
  assert (Hp : (0 <= (hi - lo) * u)%Q) by (apply Qmult_le_0_compat; lra).
  assert (Hq : ((hi - lo) * u < (hi - lo) * 1)%Q)
    by (apply Qmult_lt_l; assumption).
  split; lra.
Qed.

Lemma nth_mod_In (opts : list string) s :
  opts <> [] ->
  In (nth (Z.to_nat (s mod Z.of_nat (length opts))) opts EmptyString) opts.
Proof.
  intros Hne. apply nth_In.
  assert (0 < Z.of_nat (length opts)) by (destruct opts; simpl in *; [congruence | lia]).
  pose proof (Z.mod_pos_bound s (Z.of_nat (length opts)) ltac:(lia)). lia.
Qed.

Definition lcg : RandomState.
Proof.
  refine {| rng := Z;
            rng_seed := fun z => z;
            rng_randint := LCG.randint;
            rng_choice := LCG.choice;
            rng_uniform := LCG.uniform |}.
  - intros; apply LCG_draws_length.
  - intros lo hi n s Hlt. apply LCG_draws_Forall. intros s'.
    pose proof (Z.mod_pos_bound s' (hi - lo) ltac:(lia)). lia.
  - intros; apply LCG_draws_length.
  - intros opts n s Hne. apply LCG_draws_Forall. intros s'.
    now apply nth_mod_In.
  - intros; apply LCG_draws_length.
  - intros lo hi n s Hlt. apply LCG_draws_Forall. intros s'.
    destruct (LCG_unit_interval_range s'). now apply scale_range.
Defined.

(** ** Filter engine *)

Lemma Series_and_map {A} (f g : A -> bool) (l : list A) :
  Series_and (map f l) (map g l) = map (fun x => f x && g x) l.
Proof.
  unfold Series_and. induction l as [|x l IH]; simpl; [reflexivity|].
  now rewrite IH.
Qed.

Lemma getitem_mask_map (f : row -> bool) (df : DataFrame) :
  getitem_mask df (map f df) = filter f df.
Proof.
  unfold getitem_mask. induction df as [|r df IH]; simpl; [reflexivity|].
  destruct (f r); simpl; now rewrite IH.
Qed.

Lemma apply_filter (ds : DataFrame) (c : Criteria) :
  apply ds c = Ok (filter (retainedb c) ds).
Proof.
  unfold apply, filtered_df; simpl.
  unfold Series_ge, Series_le, Series_isin, col.
  rewrite !map_map, !Series_and_map, getitem_mask_map.
  reflexivity.
Qed.

Lemma existsb_eqb_In (x : string) (l : list string) :
  existsb (String.eqb x) l = true <-> In x l.
Proof.
  rewrite existsb_exists. split.
  - intros [y [Hin Heq]]. apply String.eqb_eq in Heq. now subst.
  - intros Hin. exists x. split; [assumption | apply String.eqb_refl].
Qed.

Lemma retainedb_spec (c : Criteria) (r : row) :
  retainedb c r = true <-> retained c r.
Proof.
  unfold retainedb, retained.
  rewrite !andb_true_iff, !Z.leb_le, !existsb_eqb_In. tauto.
Qed.

Lemma filter_none {A} (f : A -> bool) (l : list A) :
  (forall x, In x l -> f x = false) -> filter f l = [].
Proof.
  induction l as [|x l IH]; simpl; intros H; [reflexivity|].
  rewrite (H x (or_introl eq_refl)). apply IH. intros y Hy. apply H. now right.
Qed.

Lemma filter_twice {A} (f : A -> bool) (l : list A) :
  filter f (filter f l) = filter f l.
Proof.
  induction l as [|x l IH]; simpl; [reflexivity|].
  destruct (f x) eqn:E; simpl; [rewrite E, IH|]; auto.
Qed.

Lemma filter_subseq {A} (f : A -> bool) (l : list A) : subseq (filter f l) l.
Proof.
  induction l as [|x l IH]; simpl; [constructor|].
  destruct (f x); now constructor.
Qed.

(** C1.  For every dataset and criteria, [apply] returns the rows that
    satisfy the date, region and category conditions and no others, each as
    often as it occurs, in the order they have in the dataset. *)
Theorem C1_apply_retains_exactly (ds : DataFrame) (c : Criteria) :
  exists v,
    apply ds c = Ok v /\
    v = filter (retainedb c) ds /\
    (forall r, retainedb c r = true <-> retained c r) /\
    (forall r, In r v <-> In r ds /\ retained c r) /\
    subseq v ds.
Proof.
  exists (filter (retainedb c) ds).
  split; [apply apply_filter|].
  split; [reflexivity|].
  split; [apply retainedb_spec|].
  split; [|apply filter_subseq].
  intros r. rewrite filter_In, retainedb_spec. tauto.
Qed.

(** C2.  [apply] never raises; an empty region set, an empty category set
    or a start date after the end date each give the empty view. *)
Theorem C2_apply_total_and_empty (ds : DataFrame) (c : Criteria) :
  (exists v, apply ds c = Ok v) /\
  (region_set c = [] \/ category_set c = [] \/ start_date c > end_date c ->
   apply ds c = Ok []).
Proof.
  split.
  - eexists. apply apply_filter.
  - intros H. rewrite apply_filter. f_equal. apply filter_none.
    intros r _. apply not_true_iff_false. rewrite retainedb_spec.
    unfold retained. destruct H as [H | [H | H]].
    + rewrite H. simpl. tauto.
    + rewrite H. simpl. tauto.
    + lia.
Qed.

(** C9.  Filtering a filtered view again with the same criteria changes
    nothing, and the filter step leaves the global [df] as it was. *)
Theorem C9_apply_idempotent_pure (ds : DataFrame) (c : Criteria) :
  exists v,
    apply ds c = Ok v /\
    apply v c = Ok v /\
    forall old, exists g',
      run_filter {| g_df := ds; g_filtered_df := old |} c = Ok g' /\
      g_df g' = ds /\ g_filtered_df g' = Some v.
Proof.
  exists (filter (retainedb c) ds).
  split; [apply apply_filter|].
  split; [rewrite apply_filter, filter_twice; reflexivity|].
  intros old. eexists. unfold run_filter; simpl g_df.
  rewrite apply_filter. simpl. auto.
Qed.

(** ** Record generator *)

Lemma length_concat_repeat {A} (xs : list A) (k : nat) :
  length (concat (repeat xs k)) = (k * length xs)%nat.
Proof.
  induction k as [|k IH]; simpl; [reflexivity|].
  now rewrite length_app, IH.
Qed.

Lemma nth_error_concat_repeat {A} (xs : list A) (k i : nat) :
  (i < k * length xs)%nat ->
  nth_error (concat (repeat xs k)) i = nth_error xs (i mod length xs).
Proof.
  revert i. induction k as [|k IH]; intros i Hi; simpl in *; [lia|].
  destruct (Nat.lt_ge_cases i (length xs)) as [Hlt | Hge].
  - rewrite nth_error_app1 by assumption. now rewrite Nat.mod_small.
  - rewrite nth_error_app2 by assumption.
    rewrite IH by lia. f_equal.
    replace i with ((i - length xs) + 1 * length xs)%nat at 2 by lia.
    now rewrite Nat.Div0.mod_add.
Qed.

Lemma py_range_length a b : length (py_range a b) = Z.to_nat (b - a).
Proof. unfold py_range. now rewrite length_map, length_seq. Qed.

Lemma load_data_with_run (R : RandomState) (seed n p start : Z) (s0 : rng R) :
  0 <= n -> 0 <= p ->
  exists d s',
    load_data_with R seed n p start s0 = Ok (rows_of d (Revenue_column d), s') /\
    data_Date d =
      concat (repeat (map (fun k => start + Z.of_nat k) (seq 0 (Z.to_nat n)))
                     (Z.to_nat p)) /\
    data_Order_ID d = py_range 1 (n * p + 1) /\
    same_length (Z.to_nat (n * p)) d = true /\
    length (data_Date d) = Z.to_nat (n * p) /\
    Forall (fun x => 1 <= x < 10) (data_Quantity d) /\
    Forall (fun x => (10 <= x)%Q /\ (x < 1000)%Q) (data_Unit_Price d) /\
    Forall (fun x => (0 <= x)%Q /\ (x < 3 # 10)%Q) (data_Discount d).
Proof.
  intros Hn Hp.
  assert (Hnp : 0 <= n * p) by lia.
  unfold load_data_with, bind, lift, ret, np_random_seed, pd_date_range, np_tile,
    np_random_randint, np_random_choice, np_random_uniform, pd_DataFrame.
  assert (En : (n <? 0) = false) by lia.
  assert (Ep : (p <? 0) = false) by lia.
  assert (Enp : (n * p <? 0) = false) by lia.
  rewrite En, Ep, Enp.
  change (5000 <=? 1000) with false. change (10 <=? 1) with false.
  change (is_empty region_options) with false.
  change (is_empty category_options) with false.
  change (is_empty product_options) with false.
  cbv beta iota delta [orb andb].
  set (dates := map (fun k => start + Z.of_nat k) (seq 0 (Z.to_nat n))).
  set (s1 := rng_seed R seed).
  set (p1 := rng_randint R 1000 5000 (Z.to_nat (n * p)) s1).
  set (p2 := rng_choice R region_options (Z.to_nat (n * p)) (snd p1)).
  set (p3 := rng_choice R category_options (Z.to_nat (n * p)) (snd p2)).
  set (p4 := rng_choice R product_options (Z.to_nat (n * p)) (snd p3)).
  set (p5 := rng_randint R 1 10 (Z.to_nat (n * p)) (snd p4)).
  set (p6 := rng_uniform R 10 1000 (Z.to_nat (n * p)) (snd p5)).
  set (p7 := rng_uniform R 0 (3 # 10) (Z.to_nat (n * p)) (snd p6)).
  set (d := {| data_Date := concat (repeat dates (Z.to_nat p)) |}).
  assert (Hlen : length (data_Date d) = Z.to_nat (n * p)).
  { simpl. rewrite length_concat_repeat. unfold dates.
    rewrite length_map, length_seq. lia. }
  assert (Hsame : same_length (Z.to_nat (n * p)) d = true).
  { unfold same_length, d; cbn [data_Order_ID data_Customer_ID data_Region
      data_Category data_Product data_Quantity data_Unit_Price data_Discount].
    unfold p1, p2, p3, p4, p5, p6, p7.
    rewrite py_range_length, !randint_length, !choice_length, !uniform_length.
    replace (n * p + 1 - 1) with (n * p) by lia.
    rewrite Nat.eqb_refl. reflexivity. }
  rewrite Hlen, Hsame.
  exists d, (snd p7).
  split; [reflexivity|].
  split; [reflexivity|].
  split; [reflexivity|].
  split; [assumption|].
  split; [assumption|].
  split; [apply randint_range; lia|].
  split; [apply uniform_range; reflexivity|].
  apply uniform_range; reflexivity.
Qed.

Lemma generate_run (R : RandomState) (seed n p start : Z) (s0 : rng R) :
  0 <= n -> 0 <= p ->
  exists d,
    generate R seed n p start s0 = Ok (rows_of d (Revenue_column d)) /\
    data_Date d =
      concat (repeat (map (fun k => start + Z.of_nat k) (seq 0 (Z.to_nat n)))
                     (Z.to_nat p)) /\
    data_Order_ID d = py_range 1 (n * p + 1) /\
    same_length (Z.to_nat (n * p)) d = true /\
    length (data_Date d) = Z.to_nat (n * p) /\
    Forall (fun x => 1 <= x < 10) (data_Quantity d) /\
    Forall (fun x => (10 <= x)%Q /\ (x < 1000)%Q) (data_Unit_Price d) /\
    Forall (fun x => (0 <= x)%Q /\ (x < 3 # 10)%Q) (data_Discount d).
Proof.
  intros Hn Hp.
  destruct (load_data_with_run R seed n p start s0 Hn Hp) as [d [s' [Hrun H]]].
  exists d. split; [|exact H].
  unfold generate. now rewrite Hrun.
Qed.

Lemma rows_of_length d rev : length (rows_of d rev) = length (data_Date d).
Proof. unfold rows_of. now rewrite length_map, length_seq. Qed.

Lemma rows_of_nth_error d rev i r :
  nth_error (rows_of d rev) i = Some r ->
  (i < length (data_Date d))%nat /\
  Date r = nth i (data_Date d) 0 /\
  Quantity r = nth i (data_Quantity d) 0 /\
  Unit_Price r = nth i (data_Unit_Price d) 0%Q /\
  Discount r = nth i (data_Discount d) 0%Q /\
  Revenue r = nth i rev 0%Q.
Proof.
  unfold rows_of. rewrite nth_error_map. intros H.
  destruct (nth_error (seq 0 (length (data_Date d))) i) as [j|] eqn:E;
    [|discriminate].
  assert (Hi : (i < length (data_Date d))%nat).
  { rewrite <- (length_seq (length (data_Date d)) 0).
    apply nth_error_Some. congruence. }
  rewrite nth_error_seq in E.
  destruct (Nat.ltb_spec i (length (data_Date d))); [|lia].
  injection E as <-. injection H as <-. simpl. repeat split; assumption || reflexivity.
Qed.

Lemma same_length_lengths n d :
  same_length n d = true ->
  length (data_Quantity d) = n /\
  length (data_Unit_Price d) = n /\
  length (data_Discount d) = n.
Proof.
  unfold same_length. rewrite !andb_true_iff, !Nat.eqb_eq. tauto.
Qed.

Lemma nth_Series_mul (a b : list Q) i :
  (i < length a)%nat -> length a = length b ->
  nth i (Series_mul a b) 0%Q = (nth i a 0 * nth i b 0)%Q.
Proof.
  intros Hi Hlen. unfold Series_mul.
  rewrite (nth_indep _ 0%Q ((fun p => (fst p * snd p)%Q) (0%Q, 0%Q)))
    by (rewrite length_map, length_combine; lia).
  rewrite (map_nth (fun p => (fst p * snd p)%Q)), combine_nth by assumption.
  reflexivity.
Qed.

Lemma nth_Revenue_column d n i :
  same_length n d = true -> (i < n)%nat ->
  nth i (Revenue_column d) 0%Q =
  (inject_Z (nth i (data_Quantity d) 0%Z) * nth i (data_Unit_Price d) 0
   * (1 - nth i (data_Discount d) 0))%Q.
Proof.
  intros Hs Hi. apply same_length_lengths in Hs. destruct Hs as [Hq [Hu Hd]].
  unfold Revenue_column, Series_astype_float, Series_rsub.
  rewrite nth_Series_mul.
  2:{ unfold Series_mul. rewrite length_map, length_combine, length_map. lia. }
  2:{ unfold Series_mul. rewrite !length_map, length_combine, length_map. lia. }
  rewrite nth_Series_mul by (rewrite length_map; lia).
  rewrite (nth_indep (map (fun x => (1 - x)%Q) (data_Discount d)) 0%Q (1 - 0)%Q)
    by (rewrite length_map; lia).
  rewrite (map_nth (fun x => (1 - x)%Q)).
  change 0%Q with (inject_Z 0) at 1. rewrite (map_nth inject_Z).
  reflexivity.
Qed.

Lemma revenue_nonneg (q : Z) (u d : Q) :
  1 <= q -> (10 <= u)%Q -> (0 <= d)%Q -> (d < 3 # 10)%Q ->
  (0 <= inject_Z q * u * (1 - d))%Q.
Proof.
  intros Hq Hu Hd0 Hd1.
  apply Qmult_le_0_compat; [apply Qmult_le_0_compat|]; try lra.
  change 0%Q with (inject_Z 0). rewrite <- Zle_Qle. lia.
Qed.

(** C6.  Every generated row has
    [Revenue = Quantity * Unit_Price * (1 - Discount)] and a non-negative
    [Revenue]; the filter hands rows on untouched, so every row of every
    filtered view has them too. *)
Theorem C6_revenue_invariant (R : RandomState) (s0 : rng R) (seed n p start : Z) :
  0 <= n -> 0 <= p ->
  exists df,
    generate R seed n p start s0 = Ok df /\
    (forall r, In r df -> revenue_invariant r) /\
    (forall c, exists v, apply df c = Ok v /\ forall r, In r v -> revenue_invariant r).
Proof.
  intros Hn Hp.
  destruct (generate_run R seed n p start s0 Hn Hp)
    as [d [Hgen [_ [_ [Hsame [Hlen [HQ [HU HD]]]]]]]].
  exists (rows_of d (Revenue_column d)). split; [exact Hgen|].
  assert (Hall : forall r, In r (rows_of d (Revenue_column d)) -> revenue_invariant r).
  { intros r Hin. apply In_nth_error in Hin. destruct Hin as [i Hi].
    apply rows_of_nth_error in Hi.
    destruct Hi as [Hlt [_ [Eq [Eu [Ed Er]]]]].
    rewrite Hlen in Hlt.
    rewrite (nth_Revenue_column d _ i Hsame Hlt) in Er.
    destruct (same_length_lengths _ _ Hsame) as [Lq [Lu Ld]].
    unfold revenue_invariant. rewrite Er, Eq, Eu, Ed. split; [reflexivity|].
    pose proof (proj1 (Forall_nth _ _) HQ i 0 ltac:(lia)) as Bq.
    pose proof (proj1 (Forall_nth _ _) HU i 0%Q ltac:(lia)) as Bu.
    pose proof (proj1 (Forall_nth _ _) HD i 0%Q ltac:(lia)) as Bd.
    simpl in Bq, Bu, Bd.
    apply revenue_nonneg; tauto || lia. }
  split; [exact Hall|].
  intros c. exists (filter (retainedb c) (rows_of d (Revenue_column d))).
  split; [apply apply_filter|].
  intros r Hin. apply filter_In in Hin. apply Hall. tauto.
Qed.

Lemma map_nth_seq {A} (l : list A) (d : A) :
  map (fun i => nth i l d) (seq 0 (length l)) = l.
Proof.
  induction l as [|x l IH]; simpl; [reflexivity|].
  f_equal. rewrite <- seq_shift, map_map. exact IH.
Qed.

Lemma col_Date_rows_of d rev : col Date (rows_of d rev) = data_Date d.
Proof.
  unfold col, rows_of. rewrite map_map. simpl. apply map_nth_seq.
Qed.

Lemma date_range_nth_error start n k :
  0 <= k < n ->
  nth_error (map (fun j => start + Z.of_nat j) (seq 0 (Z.to_nat n))) (Z.to_nat k)
  = Some (start + k).
Proof.
  intros Hk. rewrite nth_error_map, nth_error_seq.
  destruct (Nat.ltb_spec (Z.to_nat k) (Z.to_nat n)); [|lia].
  simpl. f_equal. lia.
Qed.

(** C3.  The [Date] column is the block of [n_days] consecutive days
    repeated [per_day] times, so row [i] (from 0, in generation order)
    carries [dates[i mod n_days]], the day [start + i mod n_days]. *)
Theorem C3_dates_tiled (R : RandomState) (s0 : rng R) (seed n_days per_day start : Z) :
  0 <= n_days -> 0 <= per_day ->
  exists df dates,
    generate R seed n_days per_day start s0 = Ok df /\
    pd_date_range start n_days = Ok dates /\
    (forall k, 0 <= k < n_days -> nth_error dates (Z.to_nat k) = Some (start + k)) /\
    col Date df = concat (repeat dates (Z.to_nat per_day)) /\
    forall i, 0 <= i < n_days * per_day ->
      exists r, nth_error df (Z.to_nat i) = Some r /\
                nth_error dates (Z.to_nat (i mod n_days)) = Some (Date r) /\
                Date r = start + i mod n_days.
Proof.
  intros Hn Hp.
  destruct (generate_run R seed n_days per_day start s0 Hn Hp)
    as [d [Hgen [Hdate [_ [_ [Hlen _]]]]]].
  exists (rows_of d (Revenue_column d)).
  exists (map (fun k => start + Z.of_nat k) (seq 0 (Z.to_nat n_days))).
  split; [exact Hgen|].
  split; [unfold pd_date_range; destruct (Z.ltb_spec n_days 0); [lia | reflexivity]|].
  split; [intros k Hk; now apply date_range_nth_error|].
  split; [rewrite col_Date_rows_of; exact Hdate|].
  intros i Hi.
  assert (Hnpos : 0 < n_days) by nia.
  destruct (nth_error (rows_of d (Revenue_column d)) (Z.to_nat i)) as [r|] eqn:Er.
  2:{ apply nth_error_None in Er. rewrite rows_of_length, Hlen in Er. lia. }
  exists r. split; [reflexivity|].
  pose proof (Z.mod_pos_bound i n_days Hnpos) as Hmod.
  assert (Hd : Date r = start + i mod n_days).
  { apply rows_of_nth_error in Er. destruct Er as [Hlt [HD _]].
    assert (Hsome : nth_error (data_Date d) (Z.to_nat i) = Some (Date r)).
    { rewrite HD. apply nth_error_nth'. exact Hlt. }
    rewrite Hdate, nth_error_concat_repeat in Hsome.
    2:{ rewrite length_map, length_seq. nia. }
    rewrite length_map, length_seq, <- Z2Nat.inj_mod in Hsome by lia.
    rewrite date_range_nth_error in Hsome by lia. congruence. }
  split; [|exact Hd].
  rewrite Hd. now apply date_range_nth_error.
Qed.

Lemma generate_raises_library_error (R : RandomState) (s0 : rng R)
      (seed n p start : Z) (e : exn) :
  generate R seed n p start s0 = Raise e -> e = ValueError \/ e = OverflowError.
Proof.
  unfold generate, load_data_with, bind, lift, ret, np_random_seed, pd_date_range,
    np_tile, np_random_randint, np_random_choice, np_random_uniform, pd_DataFrame.
  repeat match goal with
         | |- context [if ?b then _ else _] => destruct b
         end; intros H; try discriminate; injection H as <-; auto.
Qed.

Lemma generate_negative (R : RandomState) (s0 : rng R) (seed n p start : Z) :
  n < 0 \/ (p < 0 /\ 0 < n) ->
  exists e, generate R seed n p start s0 = Raise e.
Proof.
  intros H.
  unfold generate, load_data_with, bind, lift, np_random_seed, pd_date_range, np_tile.
  destruct (Z.ltb_spec n 0) as [Hn | Hn]; [eexists; reflexivity|].
  destruct H as [H | [Hp Hn']]; [lia|].
  destruct (Z.ltb_spec p 0) as [_ | Hp']; [|lia].
  destruct (Z.to_nat n) as [|k] eqn:Ek; [lia|].
  eexists; reflexivity.
Qed.

(** C4 as stated fails: with a day count of zero the generator returns an
    empty table and raises nothing. *)
Lemma C4_counterexample :
  generate lcg 42 0 100 start_2025_01_01 0 = Ok [] /\
  ~ (forall n_days per_day : Z,
        n_days <= 0 \/ per_day <= 0 ->
        generate lcg 42 n_days per_day start_2025_01_01 0
        = Raise ConfigurationError).
Proof.
  assert (E : generate lcg 42 0 100 start_2025_01_01 0 = Ok [])
    by (vm_compute; reflexivity).
  split; [exact E|].
  intros H. specialize (H 0 100 ltac:(lia)). congruence.
Qed.

(** C4, amended.  The generator never raises [ConfigurationError].  With
    non-negative counts it returns [n_days * per_day] rows, none when a
    count is zero.  With a negative count numpy or pandas raise an
    exception of their own and no table is returned.  The script's own
    call, with 365 and 100, always returns 36,500 rows. *)
Theorem C4_generator_failures (R : RandomState) (s0 : rng R)
        (seed n_days per_day start : Z) :
  generate R seed n_days per_day start s0 <> Raise ConfigurationError /\
  (0 <= n_days -> 0 <= per_day ->
   exists df, generate R seed n_days per_day start s0 = Ok df /\
              length df = Z.to_nat (n_days * per_day)) /\
  ((n_days < 0 /\ per_day <> 0) \/ (per_day < 0 /\ 0 < n_days) ->
   exists e, generate R seed n_days per_day start s0 = Raise e /\
             e <> ConfigurationError) /\
  (exists df s', load_data R s0 = Ok (df, s') /\ Z.of_nat (length df) = 36500).
Proof.
  split; [|split; [|split]].
  - intros H. apply generate_raises_library_error in H.
    destruct H; discriminate.
  - intros Hn Hp.
    destruct (generate_run R seed n_days per_day start s0 Hn Hp)
      as [d [Hgen [_ [_ [_ [Hlen _]]]]]].
    eexists. split; [exact Hgen|]. now rewrite rows_of_length.
  - intros H.
    destruct (generate_negative R s0 seed n_days per_day start) as [e He]; [tauto|].
    exists e. split; [exact He|].
    apply generate_raises_library_error in He. destruct He; subst; discriminate.
  - destruct (load_data_with_run R 42 365 100 start_2025_01_01 s0 ltac:(lia) ltac:(lia))
      as [d [s' [Hrun [_ [_ [_ [Hlen _]]]]]]].
    exists (rows_of d (Revenue_column d)), s'. split; [exact Hrun|].
    rewrite rows_of_length, Hlen. reflexivity.
Qed.

(** ** Aggregator *)

(** ** Sums *)

Lemma fold_left_Qplus_acc (l : list Q) (a : Q) :
  (fold_left Qplus l a == a + fold_left Qplus l 0)%Q.
Proof.
  revert a. induction l as [|x l IH]; intros a; simpl.
  - ring.
  - rewrite (IH (a + x)%Q), (IH (0 + x)%Q). ring.
Qed.

Lemma Series_sum_cons (x : Q) (l : list Q) :
  (Series_sum (x :: l) == x + Series_sum l)%Q.
Proof.
  unfold Series_sum; simpl. rewrite fold_left_Qplus_acc. ring.
Qed.

Section GroupByFacts.

Variable K : Type.
Variable Keqb : K -> K -> bool.
Variable Kleb : K -> K -> bool.
Hypothesis Keqb_eq : forall a b, Keqb a b = true <-> a = b.
Hypothesis Kleb_total : forall a b, Kleb a b = true \/ Kleb b a = true.
Hypothesis Kleb_trans : forall a b c,
    Kleb a b = true -> Kleb b c = true -> Kleb a c = true.
Hypothesis Kleb_antisym : forall a b,
    Kleb a b = true -> Kleb b a = true -> a = b.

Lemma insert_key_In k ks x :
  In x (insert_key Keqb Kleb k ks) <-> x = k \/ In x ks.
Proof.
  induction ks as [|k' ks IH]; simpl.
  - intuition.
  - destruct (Keqb k k') eqn:E.
    + apply Keqb_eq in E. subst. simpl. intuition.
    + destruct (Kleb k k'); simpl; [intuition|]. rewrite IH. intuition.
Qed.

Lemma insert_key_sorted k ks :
  StronglySorted (Klt Kleb) ks -> StronglySorted (Klt Kleb) (insert_key Keqb Kleb k ks).
Proof.
  induction 1 as [|k' ks Hs IH Hall]; simpl.
  - repeat constructor.
  - destruct (Keqb k k') eqn:E; [now constructor|].
    assert (Hne : k <> k') by (intros ->; rewrite (proj2 (Keqb_eq k' k') eq_refl) in E; discriminate).
    destruct (Kleb k k') eqn:L.
    + constructor; [now constructor|].
      constructor; [split; assumption|].
      rewrite Forall_forall in *. intros y Hy. destruct (Hall y Hy) as [Hle Hny].
      split; [eauto|]. intros ->. apply Hne. now apply Kleb_antisym.
    + constructor; [assumption|].
      rewrite Forall_forall in *. intros y Hy.
      apply insert_key_In in Hy. destruct Hy as [-> | Hy]; [|auto].
      split; [|congruence]. destruct (Kleb_total k k'); congruence.
Qed.

Lemma group_keys_In l x : In x (group_keys Keqb Kleb l) <-> In x l.
Proof.
  induction l as [|k l IH]; simpl; [tauto|].
  rewrite insert_key_In, IH. intuition.
Qed.

Lemma group_keys_sorted l : StronglySorted (Klt Kleb) (group_keys Keqb Kleb l).
Proof.
  induction l as [|k l IH]; simpl; [constructor | now apply insert_key_sorted].
Qed.


Lemma sorted_app_inv (a : list K) x b :
  StronglySorted (Klt Kleb) (a ++ x :: b) -> Forall (Klt Kleb x) b.
Proof.
  induction a as [|y a IH]; simpl; intros H; inversion H; subst; auto.
Qed.

Lemma group_keys_nil l : group_keys Keqb Kleb l = [] <-> l = [].
Proof.
  split; [|intros ->; reflexivity].
  destruct l as [|k l]; [reflexivity|]. intros H.
  assert (Hin : In k (group_keys Keqb Kleb (k :: l))) by (apply group_keys_In; now left).
  rewrite H in Hin. destruct Hin.
Qed.

(** Group sizes add up to the number of rows *)






Lemma groupby_values key v :
  map snd (groupby_Revenue_sum Keqb Kleb key v)
  = map (group_total Keqb key v) (group_keys Keqb Kleb (col key v)).
Proof.
  unfold groupby_Revenue_sum. rewrite map_map. reflexivity.
Qed.

Lemma groupby_keys key v :
  map fst (groupby_Revenue_sum Keqb Kleb key v) = group_keys Keqb Kleb (col key v).
Proof.
  unfold groupby_Revenue_sum. rewrite map_map. simpl. apply map_id.
Qed.


(** [idxmax]: the first maximum *)

Lemma idxmax_from_split (s : list (K * Q)) :
  forall (best : K * Q) (pre mid : list (K * Q)),
    (forall p, In p pre -> (snd p < snd best)%Q) ->
    (forall p, In p mid -> (snd p <= snd best)%Q) ->
    exists pre' q post,
      pre ++ best :: mid ++ s = pre' ++ (idxmax_from best s, q) :: post /\
      (forall p, In p pre' -> (snd p < q)%Q) /\
      (forall p, In p post -> (snd p <= q)%Q).
Proof.
  induction s as [|p s IH]; intros best pre mid Hpre Hmid; simpl.
  - exists pre, (snd best), mid. rewrite app_nil_r.
    destruct best; simpl. auto.
  - destruct (Qle_bool (snd p) (snd best)) eqn:E.
    + apply Qle_bool_iff in E.
      destruct (IH best pre (mid ++ [p]) Hpre) as [pre' [q [post [Heq H]]]].
      { intros x Hx. apply in_app_or in Hx. destruct Hx as [Hx | [<- | []]]; auto. }
      exists pre', q, post. split; [|exact H].
      rewrite <- Heq, <- app_assoc. reflexivity.
    + assert (Hlt : (snd best < snd p)%Q).
      { apply Qnot_le_lt. intros H. apply Qle_bool_iff in H. congruence. }
      destruct (IH p (pre ++ best :: mid) []) as [pre' [q [post [Heq H]]]].
      { intros x Hx. apply in_app_or in Hx. destruct Hx as [Hx | [<- | Hx]].
        - specialize (Hpre x Hx). lra.
        - exact Hlt.
        - specialize (Hmid x Hx). lra. }
      { intros x []. }
      exists pre', q, post. split; [|exact H].
      rewrite <- Heq, <- app_assoc. reflexivity.
Qed.

Lemma idxmax_split (s : list (K * Q)) (k : K) :
  idxmax s = Ok k ->
  exists pre q post,
    s = pre ++ (k, q) :: post /\
    (forall p, In p pre -> (snd p < q)%Q) /\
    (forall p, In p post -> (snd p <= q)%Q).
Proof.
  destruct s as [|best s]; simpl; [discriminate|].
  intros H. injection H as <-.
  destruct (idxmax_from_split s best [] []) as [pre' [q [post H]]];
    [intros p [] | intros p [] |].
  exists pre', q, post. exact H.
Qed.

Lemma idxmax_nil (s : list (K * Q)) :
  idxmax s = Raise ValueError <-> s = [].
Proof.
  destruct s; simpl; split; congruence.
Qed.

Lemma idxmax_groupby key v k :
  idxmax (groupby_Revenue_sum Keqb Kleb key v) = Ok k ->
  In k (col key v) /\
  (forall k', In k' (col key v) ->
              (group_total Keqb key v k' <= group_total Keqb key v k)%Q) /\
  (forall k', In k' (col key v) ->
              (group_total Keqb key v k' == group_total Keqb key v k)%Q ->
              Kleb k k' = true).
Proof.
  intros H. apply idxmax_split in H.
  destruct H as [pre [q [post [Heq [Hpre Hpost]]]]].
  assert (Hkeys : group_keys Keqb Kleb (col key v) = map fst pre ++ k :: map fst post).
  { rewrite <- groupby_keys, Heq, map_app. reflexivity. }
  assert (Hmem : forall p, In p (groupby_Revenue_sum Keqb Kleb key v) ->
                           snd p = group_total Keqb key v (fst p)).
  { intros p Hp. unfold groupby_Revenue_sum in Hp. apply in_map_iff in Hp.
    destruct Hp as [x [<- _]]. reflexivity. }
  assert (Hq : q = group_total Keqb key v k).
  { apply (Hmem (k, q)). rewrite Heq. apply in_or_app. right. now left. }
  assert (Hcase : forall k', In k' (col key v) ->
            In (k', group_total Keqb key v k') pre \/ k' = k \/
            In (k', group_total Keqb key v k') post).
  { intros k' Hk'. apply (group_keys_In (col key v) k') in Hk'.
    assert (Hin : In (k', group_total Keqb key v k') (groupby_Revenue_sum Keqb Kleb key v)).
    { unfold groupby_Revenue_sum.
      apply (in_map (fun k0 => (k0, group_total Keqb key v k0))) in Hk'.
      exact Hk'. }
    rewrite Heq in Hin. apply in_app_or in Hin.
    destruct Hin as [Hin | [Hin | Hin]]; [now left | | now right; right].
    right; left. congruence. }
  subst q. split; [|split].
  - apply (group_keys_In (col key v) k). rewrite Hkeys.
    apply in_or_app. right. now left.
  - intros k' Hk'. destruct (Hcase k' Hk') as [Hin | [-> | Hin]].
    + specialize (Hpre _ Hin). simpl in Hpre. lra.
    + lra.
    + exact (Hpost _ Hin).
  - intros k' Hk' Htie. destruct (Hcase k' Hk') as [Hin | [-> | Hin]].
    + specialize (Hpre _ Hin). simpl in Hpre. lra.
    + destruct (Kleb_total k k); assumption.
    + pose proof (group_keys_sorted (col key v)) as Hs.
      rewrite Hkeys in Hs. apply sorted_app_inv in Hs.
      rewrite Forall_forall in Hs.
      apply (in_map fst) in Hin. simpl in Hin.
      exact (proj1 (Hs k' Hin)).
Qed.

Lemma groupby_nil key v :
  groupby_Revenue_sum Keqb Kleb key v = [] <-> v = [].
Proof.
  unfold groupby_Revenue_sum. split.
  - intros H. apply map_eq_nil in H.
    apply (proj1 (group_keys_nil _)) in H.
    unfold col in H. now apply map_eq_nil in H.
  - intros ->. reflexivity.
Qed.

Lemma idxmax_groupby_total key v :
  v <> [] -> exists k, idxmax (groupby_Revenue_sum Keqb Kleb key v) = Ok k.
Proof.
  intros Hne. destruct (groupby_Revenue_sum Keqb Kleb key v) eqn:E.
  - apply groupby_nil in E. contradiction.
  - simpl. eauto.
Qed.

End GroupByFacts.

(** ** The two key orders: strings and days *)

Lemma ascii_compare_N (x y : ascii) :
  Ascii.compare x y = N.compare (N_of_ascii x) (N_of_ascii y).
Proof. reflexivity. Qed.

Lemma string_leb_trans (a b c : string) :
  String.leb a b = true -> String.leb b c = true -> String.leb a c = true.
Proof.
  unfold String.leb. revert b c.
  induction a as [|x a IH]; intros [|y b] [|z c]; simpl; try congruence.
  rewrite !ascii_compare_N.
  destruct (N.compare_spec (N_of_ascii x) (N_of_ascii y)) as [Exy | Lxy | Gxy];
    destruct (N.compare_spec (N_of_ascii y) (N_of_ascii z)) as [Eyz | Lyz | Gyz];
    destruct (N.compare_spec (N_of_ascii x) (N_of_ascii z)) as [Exz | Lxz | Gxz];
    try congruence; try lia.
  apply IH.
Qed.

Lemma Z_leb_total (a b : Z) : (a <=? b) = true \/ (b <=? a) = true.
Proof. lia. Qed.

Lemma Z_leb_trans (a b c : Z) :
  (a <=? b) = true -> (b <=? c) = true -> (a <=? c) = true.
Proof. lia. Qed.

Lemma Z_leb_antisym (a b : Z) : (a <=? b) = true -> (b <=? a) = true -> a = b.
Proof. lia. Qed.

Lemma region_idxmax (v : DataFrame) (k : string) :
  top_region v = Ok k ->
  In k (col Region v) /\
  (forall k', In k' (col Region v) -> (region_total v k' <= region_total v k)%Q) /\
  (forall k', In k' (col Region v) ->
              (region_total v k' == region_total v k)%Q -> String.leb k k' = true).
Proof.
  apply (idxmax_groupby string String.eqb String.leb String.eqb_eq
           String.leb_total string_leb_trans String.leb_antisym Region v k).
Qed.

Lemma day_idxmax (v : DataFrame) (d : Z) :
  busiest_day v = Ok d ->
  In d (col Date v) /\
  (forall d', In d' (col Date v) -> (day_total v d' <= day_total v d)%Q) /\
  (forall d', In d' (col Date v) ->
              (day_total v d' == day_total v d)%Q -> d <= d').
Proof.
  intros H.
  destruct (idxmax_groupby Z Z.eqb Z.leb Z.eqb_eq Z_leb_total Z_leb_trans
              Z_leb_antisym Date v d H) as [H1 [H2 H3]].
  split; [exact H1|]. split; [exact H2|].
  intros d' Hd' Ht. apply Z.leb_le. now apply H3.
Qed.

(** C7 as stated fails for regions: when North America and Asia tie, the
    code returns Asia, which comes after North America in the declaration
    order. *)
Lemma C7_counterexample :
  top_region tied_view = Ok "Asia"%string /\
  ~ (forall (v : DataFrame) (k : string),
        top_region v = Ok k ->
        forall k', In k' (col Region v) ->
                   (region_total v k' == region_total v k)%Q ->
                   (declaration_rank k region_options
                    <= declaration_rank k' region_options)%nat).
Proof.
  assert (E : top_region tied_view = Ok "Asia"%string) by (vm_compute; reflexivity).
  split; [exact E|].
  intros H.
  specialize (H tied_view "Asia"%string E "North America"%string).
  assert (Hin : In "North America"%string (col Region tied_view)) by (simpl; auto).
  assert (Ht : (region_total tied_view "North America"%string
                == region_total tied_view "Asia"%string)%Q)
    by (vm_compute; reflexivity).
  specialize (H Hin Ht). vm_compute in H. lia.
Qed.

(** C7, amended.  [top_region] and [busiest_day] are functions of the view;
    each returns a key of maximal summed revenue, and among tied keys the
    first in the ascending order of the group keys: strings compared
    character by character (Asia, Europe, LATAM, North America), days by
    date.  On a non-empty view both return a key. *)
Theorem C7_tie_break_sorted_order (v : DataFrame) :
  (forall k, top_region v = Ok k ->
     In k (col Region v) /\
     (forall k', In k' (col Region v) -> (region_total v k' <= region_total v k)%Q) /\
     (forall k', In k' (col Region v) ->
                 (region_total v k' == region_total v k)%Q ->
                 String.leb k k' = true)) /\
  (forall d, busiest_day v = Ok d ->
     In d (col Date v) /\
     (forall d', In d' (col Date v) -> (day_total v d' <= day_total v d)%Q) /\
     (forall d', In d' (col Date v) ->
                 (day_total v d' == day_total v d)%Q -> d <= d')) /\
  (v <> [] -> (exists k, top_region v = Ok k) /\ (exists d, busiest_day v = Ok d)) /\
  group_keys String.eqb String.leb region_options
  = ["Asia"; "Europe"; "LATAM"; "North America"]%string.
Proof.
  split; [intros k; apply region_idxmax|].
  split; [intros d; apply day_idxmax|].
  split; [|reflexivity].
  intros Hne. split.
  - apply (idxmax_groupby_total string String.eqb String.leb String.eqb_eq); assumption.
  - apply (idxmax_groupby_total Z Z.eqb Z.leb Z.eqb_eq); assumption.
Qed.



Lemma Series_max_nil (s : list Q) : Series_max s = NaN <-> s = [].
Proof. destruct s; simpl; split; congruence. Qed.

(** C5 as stated fails: on the empty view the category metric returns
    [nan] while the region and day metrics raise [ValueError], so there is
    no single outcome, error or sentinel, that marks the empty view for
    all three. *)
Lemma C5_counterexample :
  outcome_of_float (top_category_revenue []) = Returns_nan /\
  outcome_of_result (top_region []) = Fails ValueError /\
  outcome_of_result (busiest_day []) = Fails ValueError /\
  ~ (exists o : outcome,
        (o = Fails EmptyViewError \/ o = Returns_nan) /\
        forall v : DataFrame,
          (outcome_of_float (top_category_revenue v) = o <-> v = []) /\
          (outcome_of_result (top_region v) = o <-> v = []) /\
          (outcome_of_result (busiest_day v) = o <-> v = [])).
Proof.
  split; [reflexivity|]. split; [reflexivity|]. split; [reflexivity|].
  intros [o [_ H]]. destruct (H []) as [[_ H1] [[_ H2] _]].
  specialize (H1 eq_refl). specialize (H2 eq_refl).
  rewrite <- H1 in H2. discriminate.
Qed.

(** C5, amended.  On the empty view, and only there, the category metric
    returns [nan] and the region and day metrics raise [ValueError]; on any
    other view all three return a value.  None raises [EmptyViewError]. *)
Theorem C5_empty_view_outcomes (v : DataFrame) :
  (top_category_revenue v = NaN <-> v = []) /\
  (top_region v = Raise ValueError <-> v = []) /\
  (busiest_day v = Raise ValueError <-> v = []) /\
  (v <> [] ->
   (exists q, top_category_revenue v = Num q) /\
   (exists k, top_region v = Ok k) /\
   (exists d, busiest_day v = Ok d)) /\
  (top_region v <> Raise EmptyViewError /\
   busiest_day v <> Raise EmptyViewError).
Proof.
  assert (Hs : forall l, groupby_Revenue_sum String.eqb String.leb Category v = l ->
                         (l = [] <-> v = [])).
  { intros l <-.
    apply (groupby_nil string String.eqb String.leb String.eqb_eq). }
  assert (H1 : top_category_revenue v = NaN <-> v = []).
  { unfold top_category_revenue. rewrite Series_max_nil.
    rewrite <- (Hs _ eq_refl). split; [apply map_eq_nil | intros ->; reflexivity]. }
  assert (H2 : top_region v = Raise ValueError <-> v = []).
  { unfold top_region. rewrite idxmax_nil.
    apply (groupby_nil string String.eqb String.leb String.eqb_eq). }
  assert (H3 : busiest_day v = Raise ValueError <-> v = []).
  { unfold busiest_day. rewrite idxmax_nil.
    apply (groupby_nil Z Z.eqb Z.leb Z.eqb_eq). }
  split; [exact H1|]. split; [exact H2|]. split; [exact H3|]. split.
  - intros Hne. split; [|split].
    + destruct (top_category_revenue v) eqn:E; [tauto | eauto].
    + apply (idxmax_groupby_total string String.eqb String.leb String.eqb_eq); assumption.
    + apply (idxmax_groupby_total Z Z.eqb Z.leb Z.eqb_eq); assumption.
  - unfold top_region, busiest_day, idxmax. split.
    + destruct (groupby_Revenue_sum String.eqb String.leb Region v); congruence.
    + destruct (groupby_Revenue_sum Z.eqb Z.leb Date v); congruence.
Qed.

(** ** Table and CSV export *)

Lemma string_append_nil_r (s : string) : (s ++ EmptyString)%string = s.
Proof. induction s as [|a s IH]; simpl; [reflexivity | now rewrite IH]. Qed.

Lemma concat_empty_cons (x : string) (l : list string) :
  String.concat EmptyString (x :: l) = (x ++ String.concat EmptyString l)%string.
Proof.
  destruct l as [|y l]; simpl; [now rewrite string_append_nil_r | reflexivity].
Qed.

(** C8 as stated fails: the exported header names [Order_ID], which is not
    one of the seven fields. *)
Lemma C8_counterexample :
  hd [] (to_csv_records (fun _ => EmptyString) (fun _ => EmptyString) []) = columns /\
  In "Order_ID"%string columns /\
  ~ In "Order_ID"%string table_columns /\
  ~ (forall (v : DataFrame) (name : string),
        In name (hd [] (to_csv_records (fun _ => EmptyString) (fun _ => EmptyString) v))
        <-> In name table_columns).
Proof.
  assert (Hin : In "Order_ID"%string columns) by (simpl; auto).
  assert (Hout : ~ In "Order_ID"%string table_columns).
  { simpl. intros H. repeat (destruct H as [H | H]; [discriminate|]). exact H. }
  split; [reflexivity|]. split; [exact Hin|]. split; [exact Hout|].
  intros H. apply Hout. apply (H [] "Order_ID"%string). exact Hin.
Qed.

(** C8, amended.  The export writes a header naming all ten columns of the
    frame, then one record of ten fields per row, in row order; the text
    is the header line followed by one comma-separated line per row.  The
    seven-column list is that of the on-screen table. *)
Theorem C8_csv_all_columns (fmt_date : Z -> string) (fmt_float : Q -> string)
        (lineterminator : string) (v : DataFrame) :
  hd_error (to_csv_records fmt_date fmt_float v)
  = Some ["Date"; "Order_ID"; "Customer_ID"; "Region"; "Category"; "Product";
          "Quantity"; "Unit_Price"; "Discount"; "Revenue"]%string /\
  length (tl (to_csv_records fmt_date fmt_float v)) = length v /\
  (forall i r, nth_error v i = Some r ->
               nth_error (to_csv_records fmt_date fmt_float v) (S i)
               = Some (cells fmt_date fmt_float r)) /\
  Forall (fun record => length record = 10%nat) (to_csv_records fmt_date fmt_float v) /\
  to_csv fmt_date fmt_float lineterminator v
  = (csv_line lineterminator columns
     ++ String.concat EmptyString
          (map (fun r => csv_line lineterminator (cells fmt_date fmt_float r)) v))%string /\
  csv_line lineterminator columns
  = ("Date,Order_ID,Customer_ID,Region,Category,Product,Quantity,Unit_Price,Discount,Revenue"
     ++ lineterminator)%string /\
  hd_error (table fmt_date fmt_float v) = Some table_columns.
Proof.
  unfold to_csv, to_csv_records.
  split; [reflexivity|].
  split; [simpl; apply length_map|].
  split; [intros i r H; simpl; rewrite nth_error_map, H; reflexivity|].
  split.
  { constructor; [reflexivity|]. apply Forall_forall. intros rec Hrec.
    apply in_map_iff in Hrec. destruct Hrec as [r [<- _]]. reflexivity. }
  split; [|split; reflexivity].
  rewrite map_cons, concat_empty_cons, map_map. reflexivity.
Qed.

(** ** Instances *)

(** C2 on a three-row view with no region selected. *)
Lemma C2_witness :
  region_set no_region = [] /\ apply sample_view no_region = Ok [].
Proof.
  split; [reflexivity|].
  apply (proj2 (C2_apply_total_and_empty sample_view no_region)).
  left. reflexivity.
Defined.

(** C3 with three days repeated twice. *)
Lemma C3_witness :
  0 <= 3 /\ 0 <= 2 /\
  exists df, generate lcg 42 3 2 20089 0 = Ok df /\
             col Date df = [20089; 20090; 20091; 20089; 20090; 20091].
Proof.
  split; [lia|]. split; [lia|].
  destruct (C3_dates_tiled lcg 0 42 3 2 20089 ltac:(lia) ltac:(lia))
    as [df [dates [H1 [H2 [_ [H4 _]]]]]].
  exists df. split; [exact H1|].
  rewrite H4. injection H2 as <-. reflexivity.
Defined.

(** C4 with a day count of zero. *)
Lemma C4_witness :
  0 <= 0 /\ 0 <= 100 /\
  exists df, generate lcg 42 0 100 start_2025_01_01 0 = Ok df /\
             length df = Z.to_nat (0 * 100).
Proof.
  split; [lia|]. split; [lia|].
  apply (proj1 (proj2 (C4_generator_failures lcg 0 42 0 100 start_2025_01_01)));
    lia.
Defined.

(** C5 on a two-row view. *)
Lemma C5_witness :
  tied_view <> [] /\
  (exists q, top_category_revenue tied_view = Num q) /\
  (exists k, top_region tied_view = Ok k) /\
  (exists d, busiest_day tied_view = Ok d).
Proof.
  assert (H : tied_view <> []) by discriminate.
  split; [exact H|].
  exact (proj1 (proj2 (proj2 (proj2 (C5_empty_view_outcomes tied_view)))) H).
Defined.

(** C6 with two days repeated twice. *)
Lemma C6_witness :
  0 <= 2 /\ 0 <= 2 /\
  exists df, generate lcg 42 2 2 start_2025_01_01 0 = Ok df /\
             forall r, In r df -> revenue_invariant r.
Proof.
  split; [lia|]. split; [lia|].
  destruct (C6_revenue_invariant lcg 0 42 2 2 start_2025_01_01
              ltac:(lia) ltac:(lia)) as [df [H1 [H2 _]]].
  exists df. split; assumption.
Defined.

(** C7 on two tied regions. *)
Lemma C7_witness :
  top_region tied_view = Ok "Asia"%string /\
  String.leb "Asia" "North America" = true.
Proof.
  assert (E : top_region tied_view = Ok "Asia"%string) by (vm_compute; reflexivity).
  split; [exact E|].
  destruct (proj1 (C7_tie_break_sorted_order tied_view) "Asia"%string E)
    as [_ [_ Htie]].
  apply Htie; [simpl; auto | vm_compute; reflexivity].
Defined.

(** A date tuple with one entry, which is not a [Criteria] value, makes
    line 68 raise. *)
Lemma short_date_range_raises (df : DataFrame) (d : Z) (rs cs : list string) :
  filtered_df df [d] rs cs = Raise IndexError.
Proof. reflexivity. Qed.

(** * Further properties of the generator, the filter and the metrics *)

Lemma load_data_with_columns (R : RandomState) (seed n p start : Z) :
  0 <= n -> 0 <= p ->
  exists d,
    (forall s0, exists s',
        load_data_with R seed n p start s0 = Ok (rows_of d (Revenue_column d), s')) /\
    (forall s0, generate R seed n p start s0 = Ok (rows_of d (Revenue_column d))) /\
    data_Date d =
      concat (repeat (map (fun k => start + Z.of_nat k) (seq 0 (Z.to_nat n)))
                     (Z.to_nat p)) /\
    data_Order_ID d = py_range 1 (n * p + 1) /\
    drawn_in_range (Z.to_nat (n * p)) d.
Proof.
  intros Hn Hp.
  assert (Hnp : 0 <= n * p) by lia.
  assert (En : (n <? 0) = false) by lia.
  assert (Ep : (p <? 0) = false) by lia.
  assert (Enp : (n * p <? 0) = false) by lia.
  set (dates := map (fun k => start + Z.of_nat k) (seq 0 (Z.to_nat n))).
  set (s1 := rng_seed R seed).
  set (p1 := rng_randint R 1000 5000 (Z.to_nat (n * p)) s1).
  set (p2 := rng_choice R region_options (Z.to_nat (n * p)) (snd p1)).
  set (p3 := rng_choice R category_options (Z.to_nat (n * p)) (snd p2)).
  set (p4 := rng_choice R product_options (Z.to_nat (n * p)) (snd p3)).
  set (p5 := rng_randint R 1 10 (Z.to_nat (n * p)) (snd p4)).
  set (p6 := rng_uniform R 10 1000 (Z.to_nat (n * p)) (snd p5)).
  set (p7 := rng_uniform R 0 (3 # 10) (Z.to_nat (n * p)) (snd p6)).
  set (d := {| data_Date := concat (repeat dates (Z.to_nat p));
               data_Order_ID := py_range 1 (n * p + 1);
               data_Customer_ID := fst p1;
               data_Region := fst p2;
               data_Category := fst p3;
               data_Product := fst p4;
               data_Quantity := fst p5;
               data_Unit_Price := fst p6;
               data_Discount := fst p7 |}).
  assert (Hlen : length (data_Date d) = Z.to_nat (n * p)).
  { simpl. rewrite length_concat_repeat. unfold dates.
    rewrite length_map, length_seq. lia. }
  assert (Hsame : same_length (Z.to_nat (n * p)) d = true).
  { unfold same_length, d; cbn [data_Order_ID data_Customer_ID data_Region
      data_Category data_Product data_Quantity data_Unit_Price data_Discount].
    unfold p1, p2, p3, p4, p5, p6, p7.
    rewrite py_range_length, !randint_length, !choice_length, !uniform_length.
    replace (n * p + 1 - 1) with (n * p) by lia.
    rewrite Nat.eqb_refl. reflexivity. }
  assert (Hrun : forall s0,
             load_data_with R seed n p start s0
             = Ok (rows_of d (Revenue_column d), snd p7)).
  { intros s0.
    unfold load_data_with, bind, lift, ret, np_random_seed, pd_date_range, np_tile,
      np_random_randint, np_random_choice, np_random_uniform, pd_DataFrame.
    rewrite En, Ep, Enp.
    change (5000 <=? 1000) with false. change (10 <=? 1) with false.
    change (is_empty region_options) with false.
    change (is_empty category_options) with false.
    change (is_empty product_options) with false.
    cbv beta iota delta [orb andb].
    fold dates. fold s1. fold p1. fold p2. fold p3. fold p4. fold p5. fold p6. fold p7.
    fold d. rewrite Hlen, Hsame. reflexivity. }
  exists d.
  split; [intros s0; exists (snd p7); apply Hrun|].
  split; [intros s0; unfold generate; rewrite Hrun; reflexivity|].
  split; [reflexivity|]. split; [reflexivity|].
  unfold drawn_in_range.
  split; [exact Hlen|].
  unfold d; cbn [data_Order_ID data_Customer_ID data_Region
      data_Category data_Product data_Quantity data_Unit_Price data_Discount].
  unfold p1, p2, p3, p4, p5, p6, p7.
  rewrite py_range_length, !randint_length, !choice_length, !uniform_length.
  repeat split; try reflexivity; try lia.
  - apply randint_range; lia.
  - apply choice_range; discriminate.
  - apply choice_range; discriminate.
  - apply choice_range; discriminate.
  - apply randint_range; lia.
  - apply uniform_range; reflexivity.
  - apply uniform_range; reflexivity.
Qed.

Lemma map_nth_seq_length {A} (l : list A) (d : A) (n : nat) :
  length l = n -> map (fun i => nth i l d) (seq 0 n) = l.
Proof. intros <-. apply map_nth_seq. Qed.

Lemma Revenue_column_length (n : nat) (d : data) :
  drawn_in_range n d -> length (Revenue_column d) = n.
Proof.
  unfold drawn_in_range. intros H.
  destruct H as (_ & _ & _ & _ & _ & _ & Hq & Hu & Hd & _).
  unfold Revenue_column, Series_mul, Series_astype_float, Series_rsub.
  rewrite !length_map, !length_combine, !length_map, length_combine, !length_map.
  lia.
Qed.

Lemma rows_of_columns (n : nat) (d : data) (rev : list Q) :
  drawn_in_range n d -> length rev = n ->
  col idx (rows_of d rev) = map Z.of_nat (seq 0 n) /\
  col Order_ID (rows_of d rev) = data_Order_ID d /\
  col Customer_ID (rows_of d rev) = data_Customer_ID d /\
  col Region (rows_of d rev) = data_Region d /\
  col Category (rows_of d rev) = data_Category d /\
  col Product (rows_of d rev) = data_Product d /\
  col Quantity (rows_of d rev) = data_Quantity d /\
  col Unit_Price (rows_of d rev) = data_Unit_Price d /\
  col Discount (rows_of d rev) = data_Discount d /\
  col Revenue (rows_of d rev) = rev.
Proof.
  unfold drawn_in_range. intros H Hrev.
  destruct H as (H0 & H1 & H2 & H3 & H4 & H5 & H6 & H7 & H8 & _).
  unfold col, rows_of. rewrite !map_map, H0. cbn [idx Order_ID Customer_ID Region
    Category Product Quantity Unit_Price Discount Revenue].
  repeat split; try (apply map_nth_seq_length; assumption).
Qed.

Lemma Forall_col {A} (P : A -> Prop) (f : row -> A) (df : DataFrame) :
  Forall P (col f df) <-> forall r, In r df -> P (f r).
Proof.
  unfold col. rewrite Forall_forall. split.
  - intros H r Hr. apply H. now apply in_map.
  - intros H x Hx. apply in_map_iff in Hx. destruct Hx as [r [<- Hr]]. auto.
Qed.

Lemma py_range_nth_error a b i :
  (i < Z.to_nat (b - a))%nat -> nth_error (py_range a b) i = Some (a + Z.of_nat i).
Proof.
  intros Hi. unfold py_range. rewrite nth_error_map, nth_error_seq.
  destruct (Nat.ltb_spec i (Z.to_nat (b - a))); [reflexivity | lia].
Qed.

Lemma py_range_NoDup a b : NoDup (py_range a b).
Proof.
  unfold py_range. apply Injective_map_NoDup; [|apply seq_NoDup].
  intros x y H. lia.
Qed.

Lemma py_range_In a b x : In x (py_range a b) <-> a <= x < b.
Proof.
  unfold py_range. rewrite in_map_iff. split.
  - intros [k [<- Hk]]. apply in_seq in Hk. lia.
  - intros H. exists (Z.to_nat (x - a)). split; [lia|]. apply in_seq. lia.
Qed.

Lemma col_nth_error {A} (f : row -> A) (df : DataFrame) i r :
  nth_error df i = Some r -> nth_error (col f df) i = Some (f r).
Proof. intros H. unfold col. now rewrite nth_error_map, H. Qed.

(** X1.  Row [i] of the generated table, counting from 0, has index label [i]
    and [Order_ID] [i + 1]; the order ids are pairwise distinct and are
    exactly the numbers 1 to [n * p]. *)
Theorem generated_order_ids (R : RandomState) (s0 : rng R) (seed n p start : Z) :
  0 <= n -> 0 <= p ->
  exists df,
    generate R seed n p start s0 = Ok df /\
    (forall i r, nth_error df i = Some r ->
                 Order_ID r = Z.of_nat i + 1 /\ idx r = Z.of_nat i) /\
    NoDup (col Order_ID df) /\
    (forall k, In k (col Order_ID df) <-> 1 <= k <= n * p).
Proof.
  intros Hn Hp.
  destruct (load_data_with_columns R seed n p start Hn Hp)
    as (d & _ & Hgen & _ & Hord & Hcols).
  exists (rows_of d (Revenue_column d)). split; [apply Hgen|].
  destruct (rows_of_columns _ d _ Hcols (Revenue_column_length _ d Hcols))
    as (Hidx & Hoid & _).
  split; [|split].
  - intros i r Hr.
    pose proof (col_nth_error Order_ID _ _ _ Hr) as H1.
    pose proof (col_nth_error idx _ _ _ Hr) as H2.
    rewrite Hoid, Hord in H1. rewrite Hidx in H2.
    assert (Hi : (i < Z.to_nat (n * p))%nat).
    { rewrite nth_error_map in H2.
      destruct (nth_error (seq 0 (Z.to_nat (n * p))) i) eqn:E; [|discriminate].
      assert (nth_error (seq 0 (Z.to_nat (n * p))) i <> None) by congruence.
      apply nth_error_Some in H. now rewrite length_seq in H. }
    rewrite py_range_nth_error in H1 by lia.
    rewrite nth_error_map, nth_error_seq in H2.
    destruct (Nat.ltb_spec i (Z.to_nat (n * p))); [|lia].
    simpl in H2. split; [|congruence].
    assert (E1 : Order_ID r = 1 + Z.of_nat i) by congruence. lia.
  - rewrite Hoid, Hord. apply py_range_NoDup.
  - intros k. rewrite Hoid, Hord, py_range_In. lia.
Qed.

Lemma count_occ_concat_repeat {A} (dec : forall x y : A, {x = y} + {x <> y})
      (xs : list A) (k : nat) (x : A) :
  count_occ dec (concat (repeat xs k)) x = (k * count_occ dec xs x)%nat.
Proof.
  induction k as [|k IH]; simpl; [reflexivity|].
  now rewrite count_occ_app, IH.
Qed.

Lemma date_range_NoDup start n :
  NoDup (map (fun k => start + Z.of_nat k) (seq 0 n)).
Proof.
  apply Injective_map_NoDup; [|apply seq_NoDup]. intros x y H. lia.
Qed.

Lemma date_range_In start n x :
  In x (map (fun k => start + Z.of_nat k) (seq 0 (Z.to_nat n)))
  <-> start <= x < start + n.
Proof.
  rewrite in_map_iff. split.
  - intros [k [<- Hk]]. apply in_seq in Hk. lia.
  - intros H. exists (Z.to_nat (x - start)). split; [lia|]. apply in_seq. lia.
Qed.

(** X2.  Each of the [n] days from [start] on occurs exactly [p] times in the
    [Date] column, and no other day occurs. *)
Theorem generated_orders_per_day (R : RandomState) (s0 : rng R)
        (seed n p start : Z) :
  0 <= n -> 0 <= p ->
  exists df,
    generate R seed n p start s0 = Ok df /\
    forall day,
      count_occ Z.eq_dec (col Date df) day
      = if (start <=? day) && (day <? start + n) then Z.to_nat p else O.
Proof.
  intros Hn Hp.
  destruct (load_data_with_columns R seed n p start Hn Hp)
    as (d & _ & Hgen & Hdate & _).
  exists (rows_of d (Revenue_column d)). split; [apply Hgen|].
  intros day. rewrite col_Date_rows_of, Hdate, count_occ_concat_repeat.
  destruct ((start <=? day) && (day <? start + n)) eqn:E.
  - assert (Hin : In day (map (fun k => start + Z.of_nat k) (seq 0 (Z.to_nat n))))
      by (apply date_range_In; lia).
    pose proof (proj1 (NoDup_count_occ' Z.eq_dec _) (date_range_NoDup start (Z.to_nat n))
                      day Hin) as H1.
    rewrite H1. lia.
  - assert (Hout : ~ In day (map (fun k => start + Z.of_nat k) (seq 0 (Z.to_nat n))))
      by (rewrite date_range_In; lia).
    apply (count_occ_not_In Z.eq_dec) in Hout. rewrite Hout. lia.
Qed.

Lemma drawn_same_length (n : nat) (d : data) :
  drawn_in_range n d -> same_length n d = true.
Proof.
  unfold drawn_in_range, same_length.
  intros (_ & H1 & H2 & H3 & H4 & H5 & H6 & H7 & H8 & _).
  rewrite H1, H2, H3, H4, H5, H6, H7, H8, Nat.eqb_refl. reflexivity.
Qed.

Lemma rows_of_revenue (n : nat) (d : data) (r : row) :
  drawn_in_range n d -> In r (rows_of d (Revenue_column d)) ->
  Revenue r = (inject_Z (Quantity r) * Unit_Price r * (1 - Discount r))%Q.
Proof.
  intros Hcols Hin. apply In_nth_error in Hin. destruct Hin as [i Hi].
  apply rows_of_nth_error in Hi. destruct Hi as (Hlt & _ & Eq & Eu & Ed & Er).
  assert (Hlen : length (data_Date d) = n) by apply Hcols.
  rewrite Hlen in Hlt.
  rewrite (nth_Revenue_column d n i (drawn_same_length n d Hcols) Hlt) in Er.
  congruence.
Qed.

Lemma generated_rows_in_range (R : RandomState) (seed n p start : Z) :
  0 <= n -> 0 <= p ->
  exists df,
    (forall s0, generate R seed n p start s0 = Ok df) /\
    forall r, In r df ->
      Revenue r = (inject_Z (Quantity r) * Unit_Price r * (1 - Discount r))%Q /\
      start <= Date r < start + n /\
      1000 <= Customer_ID r < 5000 /\
      In (Region r) region_options /\
      In (Category r) category_options /\
      In (Product r) product_options /\
      1 <= Quantity r <= 9 /\
      (10 <= Unit_Price r)%Q /\ (Unit_Price r < 1000)%Q /\
      (0 <= Discount r)%Q /\ (Discount r < 3 # 10)%Q.
Proof.
  intros Hn Hp.
  destruct (load_data_with_columns R seed n p start Hn Hp)
    as (d & _ & Hgen & Hdate & _ & Hcols).
  exists (rows_of d (Revenue_column d)). split; [apply Hgen|].
  destruct (rows_of_columns _ d _ Hcols (Revenue_column_length _ d Hcols))
    as (_ & _ & Hc & Hr & Hg & Hp' & Hq & Hu & Hd & _).
  pose proof Hcols as Hcols0.
  destruct Hcols as (_ & _ & _ & _ & _ & _ & _ & _ & _ & Fc & Fr & Fg & Fp & Fq & Fu & Fd).
  rewrite <- Hc in Fc. rewrite <- Hr in Fr. rewrite <- Hg in Fg.
  rewrite <- Hp' in Fp. rewrite <- Hq in Fq. rewrite <- Hu in Fu. rewrite <- Hd in Fd.
  rewrite Forall_col in Fc. rewrite Forall_col in Fr. rewrite Forall_col in Fg.
  rewrite Forall_col in Fp. rewrite Forall_col in Fq. rewrite Forall_col in Fu.
  rewrite Forall_col in Fd.
  intros r Hin.
  assert (HD : start <= Date r < start + n).
  { assert (Hm : In (Date r) (col Date (rows_of d (Revenue_column d))))
      by (unfold col; now apply in_map).
    rewrite col_Date_rows_of, Hdate in Hm.
    apply in_concat in Hm. destruct Hm as [blk [Hb Hx]].
    apply repeat_spec in Hb. subst blk. now apply date_range_In in Hx. }
  specialize (Fc r Hin). specialize (Fr r Hin). specialize (Fg r Hin).
  specialize (Fp r Hin). specialize (Fq r Hin). specialize (Fu r Hin).
  specialize (Fd r Hin). simpl in *.
  split; [exact (rows_of_revenue _ d r Hcols0 Hin)|].
  repeat split; try tauto; try lia.
Qed.

(** X3.  Every generated row has its day within the [n] days from [start],
    [Customer_ID] in [1000, 5000), [Quantity] from 1 to 9, a region, category
    and product from the three option lists, [Unit_Price] in [10, 1000) and
    [Discount] in [0, 0.3). *)
Theorem generated_field_ranges (R : RandomState) (s0 : rng R)
        (seed n p start : Z) :
  0 <= n -> 0 <= p ->
  exists df,
    generate R seed n p start s0 = Ok df /\
    forall r, In r df ->
      start <= Date r < start + n /\
      1000 <= Customer_ID r < 5000 /\
      In (Region r) region_options /\
      In (Category r) category_options /\
      In (Product r) product_options /\
      1 <= Quantity r <= 9 /\
      (10 <= Unit_Price r)%Q /\ (Unit_Price r < 1000)%Q /\
      (0 <= Discount r)%Q /\ (Discount r < 3 # 10)%Q.
Proof.
  intros Hn Hp.
  destruct (generated_rows_in_range R seed n p start Hn Hp) as (df & Hgen & H).
  exists df. split; [apply Hgen|].
  intros r Hin. exact (proj2 (H r Hin)).
Qed.

Lemma revenue_bounds (q : Z) (u d : Q) :
  1 <= q <= 9 -> (10 <= u)%Q -> (u < 1000)%Q -> (0 <= d)%Q -> (d < 3 # 10)%Q ->
  (7 < inject_Z q * u * (1 - d))%Q /\ (inject_Z q * u * (1 - d) < 9000)%Q.
Proof.
  intros Hq Hu0 Hu1 Hd0 Hd1.
  assert (Q1 : (1 <= inject_Z q)%Q) by (change 1%Q with (inject_Z 1); rewrite <- Zle_Qle; lia).
  assert (Q9 : (inject_Z q <= 9)%Q) by (change 9%Q with (inject_Z 9); rewrite <- Zle_Qle; lia).
  set (a := inject_Z q) in *.
  assert (A1 : (0 <= (a - 1) * (u - 10))%Q) by (apply Qmult_le_0_compat; lra).
  assert (A2 : (0 <= (9 - a) * u)%Q) by (apply Qmult_le_0_compat; lra).
  assert (Lo : (10 <= a * u)%Q) by lra.
  assert (Hi : (a * u < 9000)%Q) by lra.
  assert (B1 : (0 <= (a * u - 10) * (1 - d - (7 # 10)))%Q)
    by (apply Qmult_le_0_compat; lra).
  assert (B2 : (0 <= (a * u) * d)%Q) by (apply Qmult_le_0_compat; lra).
  split; lra.
Qed.

(** X4.  Every generated row has a revenue strictly between 7 and 9000. *)
Theorem generated_revenue_bounds (R : RandomState) (s0 : rng R)
        (seed n p start : Z) :
  0 <= n -> 0 <= p ->
  exists df,
    generate R seed n p start s0 = Ok df /\
    forall r, In r df -> (7 < Revenue r)%Q /\ (Revenue r < 9000)%Q.
Proof.
  intros Hn Hp.
  destruct (generated_rows_in_range R seed n p start Hn Hp) as (df & Hgen & H).
  exists df. split; [apply Hgen|].
  intros r Hin.
  destruct (H r Hin) as (Hrev & _ & _ & _ & _ & _ & Hq & Hu0 & Hu1 & Hd0 & Hd1).
  rewrite Hrev. now apply revenue_bounds.
Qed.

(** *** Smallest and largest date *)

Lemma fold_left_min_spec (l : list Z) (x : Z) :
  In (fold_left Z.min l x) (x :: l) /\
  forall y, In y (x :: l) -> fold_left Z.min l x <= y.
Proof.
  revert x. induction l as [|a l IH]; intros x; simpl.
  - split; [auto | intros y [<- | []]; lia].
  - destruct (IH (Z.min x a)) as [Hin Hle]. split.
    + destruct Hin as [E | Hin]; [|auto].
      rewrite <- E. destruct (Z.min_spec x a) as [[_ ->] | [_ ->]]; auto.
    + intros y Hy.
      assert (Hm : fold_left Z.min l (Z.min x a) <= Z.min x a) by (apply Hle; now left).
      destruct Hy as [<- | [<- | Hy]]; [lia | lia |].
      apply Hle. now right.
Qed.

Lemma fold_left_max_spec (l : list Z) (x : Z) :
  In (fold_left Z.max l x) (x :: l) /\
  forall y, In y (x :: l) -> y <= fold_left Z.max l x.
Proof.
  revert x. induction l as [|a l IH]; intros x; simpl.
  - split; [auto | intros y [<- | []]; lia].
  - destruct (IH (Z.max x a)) as [Hin Hle]. split.
    + destruct Hin as [E | Hin]; [|auto].
      rewrite <- E. destruct (Z.max_spec x a) as [[_ ->] | [_ ->]]; auto.
    + intros y Hy.
      assert (Hm : Z.max x a <= fold_left Z.max l (Z.max x a)) by (apply Hle; now left).
      destruct Hy as [<- | [<- | Hy]]; [lia | lia |].
      apply Hle. now right.
Qed.

Lemma Series_min_date_spec (s : list Z) (m : Z) :
  Series_min_date s = Some m <-> In m s /\ forall y, In y s -> m <= y.
Proof.
  destruct s as [|x l]; simpl.
  - split; [discriminate | intros [[] _]].
  - destruct (fold_left_min_spec l x) as [Hin Hle]. split.
    + intros E. injection E as <-. auto.
    + intros [Hm Hall]. f_equal.
      specialize (Hall _ Hin). specialize (Hle _ Hm). lia.
Qed.

Lemma Series_max_date_spec (s : list Z) (m : Z) :
  Series_max_date s = Some m <-> In m s /\ forall y, In y s -> y <= m.
Proof.
  destruct s as [|x l]; simpl.
  - split; [discriminate | intros [[] _]].
  - destruct (fold_left_max_spec l x) as [Hin Hle]. split.
    + intros E. injection E as <-. auto.
    + intros [Hm Hall]. f_equal.
      specialize (Hall _ Hin). specialize (Hle _ Hm). lia.
Qed.

(** *** Distinct values *)

Section Unique.

Variable A : Type.
Variable eqb : A -> A -> bool.
Hypothesis eqb_eq : forall a b, eqb a b = true <-> a = b.

Lemma existsb_eqb_iff (x : A) (l : list A) :
  existsb (eqb x) l = true <-> In x l.
Proof.
  rewrite existsb_exists. split.
  - intros [y [Hin E]]. apply eqb_eq in E. now subst.
  - intros Hin. exists x. split; [assumption | now apply eqb_eq].
Qed.

Lemma unique_from_In (l seen : list A) (x : A) :
  In x (unique_from eqb seen l) <-> In x l /\ ~ In x seen.
Proof.
  revert seen. induction l as [|a l IH]; intros seen; simpl; [tauto|].
  destruct (existsb (eqb a) seen) eqn:E.
  - apply existsb_eqb_iff in E. rewrite IH. split; [tauto|].
    intros [[<- | Hin] Hn]; tauto.
  - assert (Hn : ~ In a seen)
      by (intros H; apply existsb_eqb_iff in H; congruence).
    simpl. rewrite IH. simpl. split.
    + intros [<- | [Hin Hs]]; [tauto|]. tauto.
    + intros [[<- | Hin] Hs]; [tauto|].
      destruct (eqb a x) eqn:Eax; [apply eqb_eq in Eax; tauto|].
      right. split; [assumption|]. intros [-> | H]; [|tauto].
      rewrite (proj2 (eqb_eq x x) eq_refl) in Eax. discriminate.
Qed.

Lemma unique_from_NoDup (l seen : list A) : NoDup (unique_from eqb seen l).
Proof.
  revert seen. induction l as [|a l IH]; intros seen; simpl; [constructor|].
  destruct (existsb (eqb a) seen); [apply IH|].
  constructor; [|apply IH].
  rewrite unique_from_In. simpl. tauto.
Qed.

Lemma Series_unique_In (l : list A) (x : A) :
  In x (Series_unique eqb l) <-> In x l.
Proof. unfold Series_unique. rewrite unique_from_In. simpl. tauto. Qed.

Lemma Series_unique_NoDup (l : list A) : NoDup (Series_unique eqb l).
Proof. apply unique_from_NoDup. Qed.

Lemma Series_unique_length (l : list A) :
  (length (Series_unique eqb l) <= length l)%nat.
Proof.
  apply NoDup_incl_length; [apply Series_unique_NoDup|].
  intros x Hx. now apply Series_unique_In.
Qed.

End Unique.

(** *** Filters as predicates *)

Lemma filter_all {A} (f : A -> bool) (l : list A) :
  (forall x, In x l -> f x = true) -> filter f l = l.
Proof.
  induction l as [|x l IH]; simpl; intros H; [reflexivity|].
  rewrite (H x (or_introl eq_refl)). f_equal. apply IH. intros y Hy. apply H. now right.
Qed.

Lemma filter_and {A} (f g : A -> bool) (l : list A) :
  filter f (filter g l) = filter (fun x => g x && f x) l.
Proof.
  induction l as [|x l IH]; simpl; [reflexivity|].
  destruct (g x); simpl; [destruct (f x)|]; now rewrite IH.
Qed.

Lemma filter_implies_subseq {A} (f g : A -> bool) (l : list A) :
  (forall x, In x l -> f x = true -> g x = true) ->
  subseq (filter f l) (filter g l).
Proof.
  induction l as [|x l IH]; simpl; intros H; [constructor|].
  assert (IH' : subseq (filter f l) (filter g l))
    by (apply IH; intros y Hy; apply H; now right).
  destruct (f x) eqn:Ef.
  - rewrite (H x (or_introl eq_refl) Ef). now constructor.
  - destruct (g x); [now constructor | assumption].
Qed.

Lemma subseq_length {A} (l1 l2 : list A) :
  subseq l1 l2 -> (length l1 <= length l2)%nat.
Proof. induction 1; simpl; lia. Qed.

Lemma filter_ext_in' {A} (f g : A -> bool) (l : list A) :
  (forall x, In x l -> f x = g x) -> filter f l = filter g l.
Proof.
  induction l as [|x l IH]; simpl; intros H; [reflexivity|].
  rewrite (H x (or_introl eq_refl)), IH; [reflexivity|].
  intros y Hy. apply H. now right.
Qed.

Lemma narrower_retained c c' r : narrower c c' -> retained c r -> retained c' r.
Proof.
  unfold narrower, retained, incl. intros (H1 & H2 & H3 & H4) (Hd & Hr & Hc).
  repeat split; auto; lia.
Qed.

(** X6.  With the sidebar's defaults, the smallest and largest date of a
    non-empty table and every region and category that occurs in it, the
    filter returns the whole table. *)
Theorem filter_default_selects_all (df : DataFrame) :
  df <> [] ->
  exists lo hi,
    Series_min_date (col Date df) = Some lo /\
    Series_max_date (col Date df) = Some hi /\
    filtered_df df [lo; hi] (sidebar_regions df) (sidebar_categories df) = Ok df.
Proof.
  intros Hne.
  destruct (Series_min_date (col Date df)) as [lo|] eqn:Emin.
  2:{ destruct df; [congruence | discriminate]. }
  destruct (Series_max_date (col Date df)) as [hi|] eqn:Emax.
  2:{ destruct df; [congruence | discriminate]. }
  exists lo, hi. split; [reflexivity|]. split; [reflexivity|].
  apply Series_min_date_spec in Emin. apply Series_max_date_spec in Emax.
  change (filtered_df df [lo; hi] (sidebar_regions df) (sidebar_categories df))
    with (apply df {| start_date := lo; end_date := hi;
                      region_set := sidebar_regions df;
                      category_set := sidebar_categories df |}).
  rewrite apply_filter. apply f_equal. apply filter_all.
  intros r Hr. apply retainedb_spec. unfold retained; simpl.
  assert (HD : In (Date r) (col Date df)) by (unfold col; now apply in_map).
  split; [split; [now apply Emin | now apply Emax]|].
  split; unfold sidebar_regions, sidebar_categories;
    apply (Series_unique_In string String.eqb String.eqb_eq);
    unfold col; now apply in_map.
Qed.

(** X7.  Widening the criteria keeps every row: the narrower view is a
    subsequence of the wider one, has no more orders, and is what filtering
    the wider view by the narrower criteria gives. *)
Theorem filter_widening_keeps_rows (ds : DataFrame) (c c' : Criteria) :
  narrower c c' ->
  exists v v',
    apply ds c = Ok v /\ apply ds c' = Ok v' /\
    subseq v v' /\ kpi_orders v <= kpi_orders v' /\
    apply v' c = Ok v.
Proof.
  intros Hn. exists (filter (retainedb c) ds), (filter (retainedb c') ds).
  split; [apply apply_filter|]. split; [apply apply_filter|].
  assert (Hs : subseq (filter (retainedb c) ds) (filter (retainedb c') ds)).
  { apply filter_implies_subseq. intros r _ H.
    apply retainedb_spec. apply retainedb_spec in H. now apply (narrower_retained c). }
  split; [exact Hs|]. split.
  - unfold kpi_orders. apply subseq_length in Hs. lia.
  - rewrite apply_filter, filter_and. apply f_equal. apply filter_ext_in'.
    intros r _. destruct (retainedb c r) eqn:E; [|apply andb_false_r].
    rewrite andb_true_r. apply retainedb_spec.
    apply retainedb_spec in E. now apply (narrower_retained c).
Qed.

(** X8.  Filtering by two criteria one after the other gives the same view in
    either order: the rows of the dataset that satisfy both. *)
Theorem filters_commute (ds : DataFrame) (c1 c2 : Criteria) :
  exists v1 v2 v,
    apply ds c1 = Ok v1 /\ apply ds c2 = Ok v2 /\
    apply v1 c2 = Ok v /\ apply v2 c1 = Ok v /\
    forall r, In r v <-> In r ds /\ retained c1 r /\ retained c2 r.
Proof.
  exists (filter (retainedb c1) ds), (filter (retainedb c2) ds),
         (filter (fun r => retainedb c1 r && retainedb c2 r) ds).
  split; [apply apply_filter|]. split; [apply apply_filter|].
  split; [rewrite apply_filter, filter_and; reflexivity|].
  split.
  - rewrite apply_filter, filter_and. apply f_equal. apply filter_ext_in'.
    intros r _. apply andb_comm.
  - intros r. rewrite filter_In, andb_true_iff, !retainedb_spec. tauto.
Qed.

Lemma kpi_revenue_nonneg (v : DataFrame) :
  (forall r, In r v -> (0 <= Revenue r)%Q) -> (0 <= kpi_revenue v)%Q.
Proof.
  unfold kpi_revenue, col. induction v as [|r v IH]; intros H; simpl.
  - apply Qle_refl.
  - rewrite Series_sum_cons.
    pose proof (H r (or_introl eq_refl)).
    assert (0 <= Series_sum (map Revenue v))%Q by (apply IH; intros x Hx; apply H; now right).
    lra.
Qed.

(** X9.  The average order value is 0 on the empty view, by the guard of
    line 78.  On any other view whose rows have no negative revenue it is
    not negative and not above the total revenue. *)
Theorem kpi_avg_order_guarded (v : DataFrame) :
  (v = [] -> kpi_avg_order v = 0%Q) /\
  (v <> [] -> (forall r, In r v -> (0 <= Revenue r)%Q) ->
   (0 <= kpi_avg_order v)%Q /\ (kpi_avg_order v <= kpi_revenue v)%Q).
Proof.
  split.
  - intros ->. reflexivity.
  - intros Hne Hpos. unfold kpi_avg_order.
    assert (Hn : 1 <= kpi_orders v)
      by (unfold kpi_orders; destruct v; [congruence | simpl; lia]).
    destruct (Z.ltb_spec 0 (kpi_orders v)); [|lia].
    pose proof (kpi_revenue_nonneg v Hpos) as HS.
    assert (Hq : (1 <= inject_Z (kpi_orders v))%Q)
      by (change 1%Q with (inject_Z 1); rewrite <- Zle_Qle; exact Hn).
    split.
    + apply Qle_shift_div_l; lra.
    + apply Qle_shift_div_r; [lra|].
      assert (0 <= kpi_revenue v * (inject_Z (kpi_orders v) - 1))%Q
        by (apply Qmult_le_0_compat; lra).
      lra.
Qed.

(** X10.  The customer count is the number of distinct customer ids of the
    view, each counted once; it never exceeds the number of orders and is 0
    only on the empty view. *)
Theorem kpi_customers_distinct (v : DataFrame) :
  exists ids,
    NoDup ids /\
    (forall x, In x ids <-> exists r, In r v /\ Customer_ID r = x) /\
    kpi_customers v = Z.of_nat (length ids) /\
    kpi_customers v <= kpi_orders v /\
    (kpi_customers v = 0 <-> v = []).
Proof.
  exists (Series_unique Z.eqb (col Customer_ID v)).
  split; [apply Series_unique_NoDup; apply Z.eqb_eq|].
  split.
  { intros x. rewrite (Series_unique_In Z Z.eqb Z.eqb_eq). unfold col.
    rewrite in_map_iff. split; intros [r H]; exists r; tauto. }
  split; [reflexivity|]. split.
  - unfold kpi_customers, kpi_orders.
    pose proof (Series_unique_length Z Z.eqb Z.eqb_eq (col Customer_ID v)) as H.
    unfold col in H at 2. rewrite length_map in H. lia.
  - unfold kpi_customers. split.
    + intros H. destruct v as [|r v]; [reflexivity|]. exfalso.
      assert (Hin : In (Customer_ID r) (Series_unique Z.eqb (col Customer_ID (r :: v))))
        by (apply (Series_unique_In Z Z.eqb Z.eqb_eq); now left).
      destruct (Series_unique Z.eqb (col Customer_ID (r :: v))); [destruct Hin | simpl in H; lia].
    + intros ->. reflexivity.
Qed.

Lemma sorted_Zlt (ks : list Z) :
  StronglySorted (Klt Z.leb) ks -> StronglySorted Z.lt ks.
Proof.
  induction 1 as [|k ks Hs IH Hall]; constructor; [assumption|].
  rewrite Forall_forall in *. intros y Hy. destruct (Hall y Hy) as [Hle Hne].
  apply Z.leb_le in Hle. lia.
Qed.

(** X11.  The daily revenue series has one entry per day that occurs in the
    view, in strictly increasing date order, each holding that day's summed
    revenue. *)
Theorem daily_revenue_chronological (v : DataFrame) :
  StronglySorted Z.lt (map fst (daily_revenue v)) /\
  (forall d, In d (map fst (daily_revenue v)) <-> exists r, In r v /\ Date r = d) /\
  (forall d q, In (d, q) (daily_revenue v) -> q = day_total v d).
Proof.
  unfold daily_revenue. rewrite groupby_keys.
  split; [|split].
  - apply sorted_Zlt.
    apply (group_keys_sorted Z Z.eqb Z.leb Z.eqb_eq Z_leb_total Z_leb_trans Z_leb_antisym).
  - intros d. rewrite (group_keys_In Z Z.eqb Z.leb Z.eqb_eq). unfold col.
    rewrite in_map_iff. split; intros [r H]; exists r; tauto.
  - intros d q H. unfold groupby_Revenue_sum in H. apply in_map_iff in H.
    destruct H as [x [E _]]. now injection E as <- <-.
Qed.

Lemma fold_left_Qmaxb_spec (l : list Q) (x : Q) :
  In (fold_left Qmaxb l x) (x :: l) /\
  forall y, In y (x :: l) -> (y <= fold_left Qmaxb l x)%Q.
Proof.
  revert x. induction l as [|a l IH]; intros x; simpl.
  - split; [auto | intros y [<- | []]; apply Qle_refl].
  - destruct (IH (Qmaxb x a)) as [Hin Hle].
    assert (Hx : (x <= Qmaxb x a)%Q /\ (a <= Qmaxb x a)%Q /\ (Qmaxb x a = x \/ Qmaxb x a = a)).
    { unfold Qmaxb. destruct (Qle_bool a x) eqn:E.
      - apply Qle_bool_iff in E. split; [apply Qle_refl|]. split; [assumption | now left].
      - assert (x < a)%Q.
        { apply Qnot_le_lt. intros H. apply Qle_bool_iff in H. congruence. }
        split; [now apply Qlt_le_weak|]. split; [apply Qle_refl | now right]. }
    destruct Hx as (Hx1 & Hx2 & Hx3). split.
    + destruct Hin as [E | Hin]; [|auto].
      rewrite <- E. destruct Hx3 as [-> | ->]; auto.
    + intros y Hy.
      assert (Hm : (Qmaxb x a <= fold_left Qmaxb l (Qmaxb x a))%Q) by (apply Hle; now left).
      destruct Hy as [<- | [<- | Hy]].
      * eapply Qle_trans; eassumption.
      * eapply Qle_trans; eassumption.
      * apply Hle. now right.
Qed.

(** X12.  On a non-empty view the category metric is the summed revenue of
    some category of the view, and no category of the view has a larger
    sum. *)
Theorem top_category_revenue_is_max (v : DataFrame) :
  v <> [] ->
  exists q k,
    top_category_revenue v = Num q /\
    In k (col Category v) /\
    q = category_total v k /\
    forall k', In k' (col Category v) -> (category_total v k' <= q)%Q.
Proof.
  intros Hne. unfold top_category_revenue.
  rewrite groupby_values.
  destruct (group_keys String.eqb String.leb (col Category v)) as [|k0 ks] eqn:E.
  { apply (proj1 (group_keys_nil string String.eqb String.leb String.eqb_eq _)) in E.
    unfold col in E. apply map_eq_nil in E. contradiction. }
  simpl.
  destruct (fold_left_Qmaxb_spec (map (group_total String.eqb Category v) ks)
                                 (group_total String.eqb Category v k0)) as [Hin Hle].
  change (group_total String.eqb Category v k0
          :: map (group_total String.eqb Category v) ks)
    with (map (group_total String.eqb Category v) (k0 :: ks)) in Hin, Hle.
  apply in_map_iff in Hin. destruct Hin as [k [Hk Hkin]].
  eexists. exists k. split; [reflexivity|].
  split; [|split].
  - apply (group_keys_In string String.eqb String.leb String.eqb_eq).
    rewrite E. exact Hkin.
  - symmetry. exact Hk.
  - intros k' Hk'. apply Hle. apply in_map.
    rewrite <- E. now apply (group_keys_In string String.eqb String.leb String.eqb_eq).
Qed.

(** X13.  On a filtered view the top region and every region of the bar chart
    are among the selected regions, and the busiest day and every day of
    the line chart lie within the selected date range. *)
Theorem metrics_respect_filter (ds : DataFrame) (c : Criteria) (v : DataFrame) :
  apply ds c = Ok v ->
  (forall k, top_region v = Ok k -> In k (region_set c)) /\
  (forall d, busiest_day v = Ok d -> start_date c <= d <= end_date c) /\
  (forall d q, In (d, q) (daily_revenue v) -> start_date c <= d <= end_date c) /\
  (forall k q, In (k, q) (region_rev v) -> In k (region_set c)).
Proof.
  rewrite apply_filter. intros E. injection E as <-.
  assert (Hrow : forall r, In r (filter (retainedb c) ds) -> retained c r).
  { intros r Hr. apply filter_In in Hr. apply retainedb_spec. tauto. }
  assert (Hreg : forall k, In k (col Region (filter (retainedb c) ds)) -> In k (region_set c)).
  { intros k Hk. unfold col in Hk. apply in_map_iff in Hk.
    destruct Hk as [r [<- Hr]]. apply Hrow in Hr. apply Hr. }
  assert (Hday : forall d, In d (col Date (filter (retainedb c) ds)) ->
                           start_date c <= d <= end_date c).
  { intros d Hd. unfold col in Hd. apply in_map_iff in Hd.
    destruct Hd as [r [<- Hr]]. apply Hrow in Hr. apply Hr. }
  split; [|split; [|split]].
  - intros k Hk. apply region_idxmax in Hk. apply Hreg. tauto.
  - intros d Hd. apply day_idxmax in Hd. apply Hday. tauto.
  - intros d q Hin. apply Hday.
    apply (group_keys_In Z Z.eqb Z.leb Z.eqb_eq).
    unfold daily_revenue in Hin. rewrite <- groupby_keys.
    apply (in_map fst) in Hin. exact Hin.
  - intros k q Hin. apply Hreg.
    apply (group_keys_In string String.eqb String.leb String.eqb_eq).
    unfold region_rev in Hin. rewrite <- groupby_keys.
    apply (in_map fst) in Hin. exact Hin.
Qed.

(** X14.  The on-screen table has the seven-column header and then the first
    1000 rows of the view, or all of them if there are fewer, in order,
    each with seven cells. *)
Theorem table_first_thousand (fmt_date : Z -> string) (fmt_float : Q -> string)
        (v : DataFrame) :
  hd_error (table fmt_date fmt_float v) = Some table_columns /\
  length (tl (table fmt_date fmt_float v)) = Nat.min 1000 (length v) /\
  (forall i r, (i < 1000)%nat -> nth_error v i = Some r ->
               nth_error (table fmt_date fmt_float v) (S i)
               = Some (table_cells fmt_date fmt_float r)) /\
  (forall i, (1000 <= i)%nat -> nth_error (table fmt_date fmt_float v) (S i) = None) /\
  Forall (fun record => length record = 7%nat) (table fmt_date fmt_float v).
Proof.
  unfold table. split; [reflexivity|].
  split; [cbn [tl]; now rewrite length_firstn, length_map|].
  split.
  { intros i r Hi Hr. cbn [nth_error]. rewrite nth_error_firstn.
    destruct (Nat.ltb_spec i 1000); [|lia]. now rewrite nth_error_map, Hr. }
  split.
  { intros i Hi. cbn [nth_error]. rewrite nth_error_firstn.
    destruct (Nat.ltb_spec i 1000); [lia | reflexivity]. }
  constructor; [reflexivity|]. apply Forall_forall. intros rec Hrec.
  assert (Hin : In rec (map (table_cells fmt_date fmt_float) v)).
  { clear -Hrec. revert Hrec. generalize 1000%nat.
    induction (map (table_cells fmt_date fmt_float) v) as [|x l IH]; intros n Hn.
    - destruct n; destruct Hn.
    - destruct n; [destruct Hn|]. simpl in Hn. destruct Hn as [<- | Hn]; [now left|].
      right. eapply IH; eassumption. }
  apply in_map_iff in Hin. destruct Hin as [r [<- _]]. reflexivity.
Qed.

Lemma sorted_same_elements (l1 l2 : list Z) :
  StronglySorted Z.lt l1 -> StronglySorted Z.lt l2 ->
  (forall x, In x l1 <-> In x l2) -> l1 = l2.
Proof.
  intros H1. revert l2. induction H1 as [|x l1 Hs1 IH Hall1]; intros l2 H2 Heq.
  - destruct l2 as [|y l2]; [reflexivity|].
    exfalso. apply (proj2 (Heq y)). now left.
  - destruct H2 as [|y l2 Hs2 Hall2].
    + exfalso. apply (proj1 (Heq x)). now left.
    + rewrite Forall_forall in Hall1, Hall2.
      assert (Exy : x = y).
      { destruct (proj1 (Heq x) (or_introl eq_refl)) as [E | Hx]; [congruence|].
        destruct (proj2 (Heq y) (or_introl eq_refl)) as [E | Hy]; [congruence|].
        specialize (Hall1 _ Hy). specialize (Hall2 _ Hx). lia. }
      subst y. f_equal. apply IH; [assumption|].
      intros z. split; intros Hz.
      * destruct (proj1 (Heq z) (or_intror Hz)) as [E | H]; [|assumption].
        specialize (Hall1 _ Hz). lia.
      * destruct (proj2 (Heq z) (or_intror Hz)) as [E | H]; [|assumption].
        specialize (Hall2 _ Hz). lia.
Qed.

Lemma date_range_sorted start a n :
  StronglySorted Z.lt (map (fun k => start + Z.of_nat k) (seq a n)).
Proof.
  revert a. induction n as [|n IH]; intros a; simpl; constructor; [apply IH|].
  apply Forall_forall. intros y Hy. apply in_map_iff in Hy.
  destruct Hy as [k [<- Hk]]. apply in_seq in Hk. lia.
Qed.

Lemma In_concat_repeat {A} (xs : list A) (k : nat) (x : A) :
  (0 < k)%nat -> (In x (concat (repeat xs k)) <-> In x xs).
Proof.
  intros Hk. rewrite in_concat. split.
  - intros [blk [Hb Hx]]. apply repeat_spec in Hb. now subst.
  - intros Hx. exists xs. split; [|assumption].
    destruct k; [lia|]. now left.
Qed.

(** X5.  On a generated table with at least one day and one block, the
    smallest date is [start], the largest is [start + n - 1] (the defaults
    and limits of the date widget), and the daily revenue series has one
    entry per day, the [n] days in order. *)
Theorem generated_date_span (R : RandomState) (s0 : rng R) (seed n p start : Z) :
  0 < n -> 0 < p ->
  exists df,
    generate R seed n p start s0 = Ok df /\
    Series_min_date (col Date df) = Some start /\
    Series_max_date (col Date df) = Some (start + n - 1) /\
    map fst (daily_revenue df)
    = map (fun k => start + Z.of_nat k) (seq 0 (Z.to_nat n)) /\
    length (daily_revenue df) = Z.to_nat n.
Proof.
  intros Hn Hp.
  destruct (load_data_with_columns R seed n p start ltac:(lia) ltac:(lia))
    as (d & _ & Hgen & Hdate & _).
  exists (rows_of d (Revenue_column d)). split; [apply Hgen|].
  assert (Hin : forall x, In x (col Date (rows_of d (Revenue_column d)))
                          <-> start <= x < start + n).
  { intros x. rewrite col_Date_rows_of, Hdate, In_concat_repeat by lia.
    apply date_range_In. }
  assert (Hkeys : map fst (daily_revenue (rows_of d (Revenue_column d)))
                  = map (fun k => start + Z.of_nat k) (seq 0 (Z.to_nat n))).
  { unfold daily_revenue. rewrite groupby_keys.
    apply sorted_same_elements.
    - apply sorted_Zlt.
      apply (group_keys_sorted Z Z.eqb Z.leb Z.eqb_eq Z_leb_total Z_leb_trans
               Z_leb_antisym).
    - apply date_range_sorted.
    - intros x. rewrite (group_keys_In Z Z.eqb Z.leb Z.eqb_eq), Hin.
      symmetry. apply date_range_In. }
  split; [|split; [|split]].
  - apply Series_min_date_spec. split; [apply Hin; lia|].
    intros y Hy. apply Hin in Hy. lia.
  - apply Series_max_date_spec. split; [apply Hin; lia|].
    intros y Hy. apply Hin in Hy. lia.
  - exact Hkeys.
  - rewrite <- (length_map fst), Hkeys, length_map, length_seq. reflexivity.
Qed.

Lemma kpi_revenue_filter_le (f : row -> bool) (ds : DataFrame) :
  (forall r, In r ds -> (0 <= Revenue r)%Q) ->
  (0 <= kpi_revenue (filter f ds))%Q /\
  (kpi_revenue (filter f ds) <= kpi_revenue ds)%Q.
Proof.
  unfold kpi_revenue, col.
  induction ds as [|r ds IH]; intros H; simpl.
  - split; apply Qle_refl.
  - destruct IH as [IH0 IH1]; [intros x Hx; apply H; now right|].
    pose proof (H r (or_introl eq_refl)) as Hr.
    destruct (f r); simpl; rewrite ?Series_sum_cons; split; lra.
Qed.

(** X15.  When no row has a negative revenue, the total revenue of a filtered
    view is non-negative and at most that of the dataset, and so is the
    number of orders. *)
Theorem filtered_revenue_bounded (ds : DataFrame) (c : Criteria) :
  (forall r, In r ds -> (0 <= Revenue r)%Q) ->
  exists v,
    apply ds c = Ok v /\
    (0 <= kpi_revenue v)%Q /\
    (kpi_revenue v <= kpi_revenue ds)%Q /\
    kpi_orders v <= kpi_orders ds.
Proof.
  intros H. exists (filter (retainedb c) ds).
  split; [apply apply_filter|].
  destruct (kpi_revenue_filter_le (retainedb c) ds H) as [H0 H1].
  split; [exact H0|]. split; [exact H1|].
  unfold kpi_orders. pose proof (filter_length_le (retainedb c) ds). lia.
Qed.


(** X16.  The filter expression raises [IndexError] exactly when the date
    tuple has fewer than two entries; with two or more it returns a
    subsequence of the table, reading only the first two. *)
Theorem filtered_df_needs_two_dates (df : DataFrame) (date_range : list Z)
        (regions categories : list string) :
  ((length date_range < 2)%nat ->
   filtered_df df date_range regions categories = Raise IndexError) /\
  ((2 <= length date_range)%nat ->
   exists v, filtered_df df date_range regions categories = Ok v /\ subseq v df).
Proof.
  destruct date_range as [|d0 [|d1 rest]]; simpl; split; intros H;
    try lia; try reflexivity.
  change (filtered_df df (d0 :: d1 :: rest) regions categories)
    with (apply df {| start_date := d0; end_date := d1;
                      region_set := regions; category_set := categories |}).
  rewrite apply_filter. eexists. split; [reflexivity | apply filter_subseq].
Qed.

Lemma generated_order_ids_witness :
  0 <= 2 /\ 0 <= 2 /\
  exists df, generate lcg 42 2 2 start_2025_01_01 0 = Ok df /\
             NoDup (col Order_ID df).
Proof.
  split; [lia|]. split; [lia|].
  destruct (generated_order_ids lcg 0 42 2 2 start_2025_01_01 ltac:(lia) ltac:(lia))
    as (df & H1 & _ & H2 & _).
  exists df. split; assumption.
Defined.

Lemma generated_orders_per_day_witness :
  0 <= 3 /\ 0 <= 2 /\
  exists df, generate lcg 42 3 2 start_2025_01_01 0 = Ok df /\
             count_occ Z.eq_dec (col Date df) 20090 = 2%nat.
Proof.
  split; [lia|]. split; [lia|].
  destruct (generated_orders_per_day lcg 0 42 3 2 start_2025_01_01
              ltac:(lia) ltac:(lia)) as (df & H1 & H2).
  exists df. split; [exact H1|]. rewrite H2. reflexivity.
Defined.

Lemma generated_field_ranges_witness :
  0 <= 2 /\ 0 <= 2 /\
  exists df, generate lcg 42 2 2 start_2025_01_01 0 = Ok df /\
             forall r, In r df -> 1 <= Quantity r <= 9.
Proof.
  split; [lia|]. split; [lia|].
  destruct (generated_field_ranges lcg 0 42 2 2 start_2025_01_01
              ltac:(lia) ltac:(lia)) as (df & H1 & H2).
  exists df. split; [exact H1|]. intros r Hr. apply (H2 r Hr).
Defined.

Lemma generated_revenue_bounds_witness :
  0 <= 2 /\ 0 <= 2 /\
  exists df, generate lcg 42 2 2 start_2025_01_01 0 = Ok df /\
             forall r, In r df -> (7 < Revenue r)%Q /\ (Revenue r < 9000)%Q.
Proof.
  split; [lia|]. split; [lia|].
  exact (generated_revenue_bounds lcg 0 42 2 2 start_2025_01_01
           ltac:(lia) ltac:(lia)).
Defined.

Lemma generated_date_span_witness :
  0 < 3 /\ 0 < 2 /\
  exists df, generate lcg 42 3 2 start_2025_01_01 0 = Ok df /\
             Series_min_date (col Date df) = Some 20089 /\
             Series_max_date (col Date df) = Some 20091 /\
             map fst (daily_revenue df) = [20089; 20090; 20091].
Proof.
  split; [lia|]. split; [lia|].
  destruct (generated_date_span lcg 0 42 3 2 start_2025_01_01
              ltac:(lia) ltac:(lia)) as (df & H1 & H2 & H3 & H4 & _).
  exists df. repeat split; assumption.
Defined.

Lemma filter_default_selects_all_witness :
  sample_view <> [] /\
  filtered_df sample_view [20089; 20091] (sidebar_regions sample_view)
              (sidebar_categories sample_view) = Ok sample_view.
Proof.
  assert (H : sample_view <> []) by discriminate.
  split; [exact H|].
  destruct (filter_default_selects_all sample_view H) as (lo & hi & H1 & H2 & H3).
  injection H1 as <-. injection H2 as <-. exact H3.
Defined.

Lemma narrower_no_region : narrower no_region whole_year.
Proof.
  unfold narrower; simpl. repeat split; try lia.
  - intros x [].
  - apply incl_refl.
Defined.

Lemma filter_widening_keeps_rows_witness :
  narrower no_region whole_year /\
  exists v v', apply sample_view no_region = Ok v /\
               apply sample_view whole_year = Ok v' /\
               kpi_orders v <= kpi_orders v'.
Proof.
  split; [exact narrower_no_region|].
  destruct (filter_widening_keeps_rows sample_view no_region whole_year
              narrower_no_region) as (v & v' & H1 & H2 & _ & H3 & _).
  exists v, v'. repeat split; assumption.
Defined.

Lemma sample_view_nonneg : forall r, In r sample_view -> (0 <= Revenue r)%Q.
Proof.
  intros r Hr. simpl in Hr.
  repeat (destruct Hr as [<- | Hr]; [simpl; unfold Qle; simpl; lia|]).
  destruct Hr.
Defined.

Lemma kpi_avg_order_guarded_witness :
  sample_view <> [] /\
  (forall r, In r sample_view -> (0 <= Revenue r)%Q) /\
  (0 <= kpi_avg_order sample_view)%Q /\
  (kpi_avg_order sample_view <= kpi_revenue sample_view)%Q.
Proof.
  assert (H : sample_view <> []) by discriminate.
  split; [exact H|]. split; [exact sample_view_nonneg|].
  exact (proj2 (kpi_avg_order_guarded sample_view) H sample_view_nonneg).
Defined.

Lemma top_category_revenue_is_max_witness :
  sample_view <> [] /\
  exists q k, top_category_revenue sample_view = Num q /\
              In k (col Category sample_view) /\ q = category_total sample_view k.
Proof.
  assert (H : sample_view <> []) by discriminate.
  split; [exact H|].
  destruct (top_category_revenue_is_max sample_view H) as (q & k & H1 & H2 & H3 & _).
  exists q, k. repeat split; assumption.
Defined.

Lemma metrics_respect_filter_witness :
  apply sample_view whole_year = Ok sample_view /\
  forall k, top_region sample_view = Ok k -> In k (region_set whole_year).
Proof.
  assert (H : apply sample_view whole_year = Ok sample_view) by reflexivity.
  split; [exact H|].
  exact (proj1 (metrics_respect_filter sample_view whole_year sample_view H)).
Defined.

Lemma filtered_revenue_bounded_witness :
  (forall r, In r sample_view -> (0 <= Revenue r)%Q) /\
  exists v, apply sample_view whole_year = Ok v /\
            (kpi_revenue v <= kpi_revenue sample_view)%Q.
Proof.
  assert (H : forall r, In r sample_view -> (0 <= Revenue r)%Q).
  { intros r Hr. simpl in Hr.
    repeat (destruct Hr as [<- | Hr]; [simpl; unfold Qle; simpl; lia|]).
    destruct Hr. }
  split; [exact H|].
  destruct (filtered_revenue_bounded sample_view whole_year H) as (v & H1 & _ & H2 & _).
  exists v. split; assumption.
Defined.

Lemma filtered_df_needs_two_dates_witness :
  (length [20089%Z] < 2)%nat /\
  filtered_df sample_view [20089] region_options category_options = Raise IndexError.
Proof.
  split; [simpl; lia|].
  apply (proj1 (filtered_df_needs_two_dates sample_view [20089] region_options
                  category_options)).
  simpl; lia.
Defined.
